(** * Wipe-certificate generator ([gen_cert.py]): model and properties

    The script is embedded function by function.  Python [str] values are
    Stdlib strings; the text handled here (device paths, method names,
    digests, mode tokens) is ASCII, and the case maps [lower] and [upper]
    are Python's on that range, code points above 127 standing for
    caseless characters.  What the script obtains from outside (clock,
    host name, login name, the [lsblk] process, the [json] and WeasyPrint
    libraries) is read from a record [world]; what it does to the outside
    (process spawns, the PDF write, prints, the exit status) is collected
    in a trace by a small writer monad with early exit.  The clock and the
    host name always answer, and a [print] to the error stream always
    succeeds; a [print] to standard output may raise, or stay in a buffer
    that cannot be flushed when the interpreter exits. *)

From Stdlib Require Import String Ascii List ZArith NArith Bool Lia.
From Stdlib Require Import DecimalString DecimalPos DecimalN.
Import ListNotations.
Local Open Scope string_scope.

(** ** Text helpers *)

Definition dq : string := String (ascii_of_nat 34) EmptyString.
Definition nl : string := String (ascii_of_nat 10) EmptyString.
Definition sq : string := "'".

Definition is_upper (c : ascii) : bool :=
  let n := nat_of_ascii c in (65 <=? n)%nat && (n <=? 90)%nat.
Definition is_lower (c : ascii) : bool :=
  let n := nat_of_ascii c in (97 <=? n)%nat && (n <=? 122)%nat.

Definition lower_char (c : ascii) : ascii :=
  if is_upper c then ascii_of_nat (nat_of_ascii c + 32) else c.
Definition upper_char (c : ascii) : ascii :=
  if is_lower c then ascii_of_nat (nat_of_ascii c - 32) else c.

Fixpoint smap (f : ascii -> ascii) (s : string) : string :=
  match s with
  | EmptyString => EmptyString
  | String c r => String (f c) (smap f r)
  end.

(** [str.lower()] and [str.upper()], exact on ASCII text ([is_ascii]):
    beyond it Python's maps follow the Unicode tables. *)
Definition lower : string -> string := smap lower_char.
Definition upper : string -> string := smap upper_char.

Fixpoint is_ascii (s : string) : bool :=
  match s with
  | EmptyString => true
  | String c r => (nat_of_ascii c <? 128)%nat && is_ascii r
  end.

(** [str(n)] for a non-negative [int]. *)
Definition str_N (n : N) : string := NilZero.string_of_uint (N.to_uint n).

(** Occurrences of a character. *)
Fixpoint count (c : ascii) (s : string) : nat :=
  match s with
  | EmptyString => 0
  | String d r => (if Ascii.eqb c d then 1 else 0) + count c r
  end.

(** [needle in hay], as a proposition and as a test. *)
Definition contains (hay needle : string) : Prop :=
  exists pre post, hay = pre ++ needle ++ post.

Fixpoint infixb (needle hay : string) : bool :=
  prefix needle hay ||
  match hay with
  | EmptyString => false
  | String _ r => infixb needle r
  end.

(** ** f-strings

    An f-string is a sequence of literal parts and formatted values, which
    is how Python's own syntax tree ([JoinedStr]) holds it.  The only
    expressions formatted in this script are local names and
    [mode.upper()]. *)

Inductive var : Set :=
| v_device_path | v_dry_run_html_banner | v_timestamp | v_wipe_method
| v_hostname | v_user | v_mode | v_device_details | v_verification_hash.

Inductive expr : Set :=
| Name (x : var)
| CallUpper (x : var).

Inductive fpart : Set :=
| Constant (s : string)
| FormattedValue (e : expr).

Definition scope := var -> string.

Definition eval (rho : scope) (e : expr) : string :=
  match e with
  | Name x => rho x
  | CallUpper x => upper (rho x)
  end.

Definition part_str (rho : scope) (p : fpart) : string :=
  match p with
  | Constant s => s
  | FormattedValue e => eval rho e
  end.

Fixpoint joined_str (rho : scope) (ps : list fpart) : string :=
  match ps with
  | [] => EmptyString
  | p :: r => part_str rho p ++ joined_str rho r
  end.

Definition tx (s : string) : fpart := Constant s.
Definition ln (s : string) : fpart := Constant (s ++ nl).
Definition fv (x : var) : fpart := FormattedValue (Name x).
Definition up (x : var) : fpart := FormattedValue (CallUpper x).

Definition var_eq_dec (x y : var) : {x = y} + {x <> y}.
Proof. decide equality. Defined.

Definition expr_eq_dec (a b : expr) : {a = b} + {a <> b}.
Proof. decide equality; apply var_eq_dec. Defined.

Definition fpart_eq_dec (p q : fpart) : {p = q} + {p <> q}.
Proof. decide equality; [apply string_dec | apply expr_eq_dec]. Defined.

(** [seg] is a run of consecutive parts of [ps]. *)
Fixpoint starts_with (seg ps : list fpart) : bool :=
  match seg, ps with
  | [], _ => true
  | _ :: _, [] => false
  | a :: seg', b :: ps' => if fpart_eq_dec a b then starts_with seg' ps' else false
  end.

Fixpoint is_segment (seg ps : list fpart) : bool :=
  starts_with seg ps ||
  match ps with
  | [] => false
  | _ :: r => is_segment seg r
  end.

(** Occurrences of [c] in the literal parts, and in the formatted values. *)
Fixpoint count_const (c : ascii) (ps : list fpart) : nat :=
  match ps with
  | [] => 0
  | Constant s :: r => count c s + count_const c r
  | FormattedValue _ :: r => count_const c r
  end.

Fixpoint count_values (c : ascii) (rho : scope) (ps : list fpart) : nat :=
  match ps with
  | [] => 0
  | Constant _ :: r => count_values c rho r
  | FormattedValue e :: r => count c (eval rho e) + count_values c rho r
  end.

(** [clash needle t]: [needle] and [t] differ at a position both have, so
    that no text starting with [t] starts with [needle]. *)
Fixpoint clash (needle t : string) : bool :=
  match needle, t with
  | String a n', String b t' => if Ascii.eqb a b then clash n' t' else true
  | _, _ => false
  end.

(** No occurrence of [needle] starts inside the literal [s], whatever
    follows it. *)
Fixpoint clear_of (needle s : string) : bool :=
  match s with
  | EmptyString => true
  | String _ r => clash needle s && clear_of needle r
  end.

Fixpoint consts_clear (needle : string) (ps : list fpart) : bool :=
  match ps with
  | [] => true
  | Constant s :: r => clear_of needle s && consts_clear needle r
  | FormattedValue _ :: r => consts_clear needle r
  end.

(** The parts of an f-string other than its [{x}] fields. *)
Definition without (x : var) (ps : list fpart) : list fpart :=
  filter (fun p => if fpart_eq_dec p (FormattedValue (Name x)) then false else true) ps.

(** ** The certificate markup (lines 52-147) *)

(** The triple-quoted banner of lines 54-59. *)
Definition dry_run_banner_text : string :=
  nl ++
  "        <div class=" ++ dq ++ "dry-run-banner" ++ dq ++ ">" ++ nl ++
  "            <h2>DRY RUN MODE</h2>" ++ nl ++
  "            <p>This certificate was generated from a dry run. No destructive operations were performed on the device.</p>" ++ nl ++
  "        </div>" ++ nl ++
  "        ".

Definition dry_run_html_banner (mode : string) : string :=
  if lower mode =? "dry" then dry_run_banner_text else EmptyString.

(** The f-string of lines 62-147, one source line per row. *)
Definition html_template : list fpart :=
  [
    ln EmptyString;
    ln "    <!DOCTYPE html>";
    ln ("    <html lang=" ++ dq ++ "en" ++ dq ++ ">");
    ln "    <head>";
    ln ("        <meta charset=" ++ dq ++ "UTF-8" ++ dq ++ ">");
    tx "        <title>Secure Data Wipe Certificate for "; fv v_device_path; ln "</title>";
    ln "        <style>";
    ln "            body {";
    ln "                font-family: sans-serif;";
    ln "                font-size: 12pt;";
    ln "                line-height: 1.5;";
    ln "                color: #333;";
    ln "            }";
    ln "            .container {";
    ln "                border: 2px solid #000;";
    ln "                padding: 20px 40px;";
    ln "                margin: 20px;";
    ln "            }";
    ln "            h1 {";
    ln "                text-align: center;";
    ln "                border-bottom: 2px solid #ccc;";
    ln "                padding-bottom: 10px;";
    ln "                margin-bottom: 20px;";
    ln "                font-size: 24pt;";
    ln "            }";
    ln "            h2 {";
    ln "                font-size: 16pt;";
    ln "                color: #555;";
    ln "                border-bottom: 1px solid #eee;";
    ln "                padding-bottom: 5px;";
    ln "            }";
    ln "            .dry-run-banner {";
    ln "                border: 3px dashed #d9534f;";
    ln "                background-color: #f2dede;";
    ln "                color: #a94442;";
    ln "                padding: 10px 20px;";
    ln "                text-align: center;";
    ln "                margin-bottom: 20px;";
    ln "            }";
    ln "            .details-grid {";
    ln "                display: grid;";
    ln "                grid-template-columns: 200px 1fr;";
    ln "                gap: 5px 20px;";
    ln "                margin-bottom: 20px;";
    ln "            }";
    ln "            .details-grid b {";
    ln "                font-weight: bold;";
    ln "            }";
    ln "            .mono {";
    ln "                font-family: monospace;";
    ln "                background-color: #f5f5f5;";
    ln "                padding: 15px;";
    ln "                border: 1px solid #ccc;";
    ln "                border-radius: 4px;";
    ln "                white-space: pre-wrap; /* Allows long lines to wrap */";
    ln "                word-wrap: break-word;";
    ln "            }";
    ln "        </style>";
    ln "    </head>";
    ln "    <body>";
    ln ("        <div class=" ++ dq ++ "container" ++ dq ++ ">");
    tx "            "; fv v_dry_run_html_banner; ln EmptyString;
    ln "            <h1>Secure Data Wipe Certificate</h1>";
    ln EmptyString;
    ln "            <h2>Operation Details</h2>";
    ln ("            <div class=" ++ dq ++ "details-grid" ++ dq ++ ">");
    tx "                <b>Wipe Timestamp (UTC):</b> <span>"; fv v_timestamp; ln "</span>";
    tx "                <b>Wipe Method Employed:</b> <span>"; fv v_wipe_method; ln "</span>";
    tx "                <b>Executing Hostname:</b> <span>"; fv v_hostname; ln "</span>";
    tx "                <b>Executing User:</b> <span>"; fv v_user; ln "</span>";
    tx "                <b>Execution Mode:</b> <span>"; up v_mode; ln "</span>";
    ln "            </div>";
    ln EmptyString;
    ln "            <h2>Device Information</h2>";
    ln ("            <div class=" ++ dq ++ "details-grid" ++ dq ++ ">");
    tx "                <b>Device Path:</b> <span>"; fv v_device_path; ln "</span>";
    ln "            </div>";
    tx ("            <pre class=" ++ dq ++ "mono" ++ dq ++ ">"); fv v_device_details; ln "</pre>";
    ln EmptyString;
    ln "            <h2>Verification</h2>";
    ln "            <p>Post-wipe sample hash (SHA256) of the first 4096 bytes:</p>";
    tx ("            <pre class=" ++ dq ++ "mono" ++ dq ++ ">"); fv v_verification_hash; ln "</pre>";
    ln "        </div>";
    ln "    </body>";
    ln "    </html>";
    tx "    "
  ].

(** ** Exceptions and results *)

(** The classes this script can tell apart, an exception counting for
    the named class it is an instance of.  [OtherException] is any
    instance of [Exception] that is an instance of none of the six named
    ones (a [PermissionError] from the spawn, a [UnicodeDecodeError] on the
    tool's output, ...).  [KeyboardInterrupt] and [SystemExit] derive from
    [BaseException] only, are not raised by the calls made here, and are
    not modelled as values of [exn]. *)
Inductive exn_class : Set :=
| CalledProcessError
| FileNotFoundError
| JSONDecodeError
| IndexError
| KeyError
| TypeError
| OtherException.

(** An exception value: its class and [str(e)]. *)
Record exn : Set := Exn { class_of : exn_class; exn_str : string }.

Definition result (A : Type) : Type := (exn + A)%type.
Definition raise {A : Type} (e : exn) : result A := inl e.
Definition ok {A : Type} (a : A) : result A := inr a.
Definition try_bind {A B : Type} (r : result A) (k : A -> result B) : result B :=
  match r with
  | inl e => inl e
  | inr a => k a
  end.

Declare Scope try_scope.
Delimit Scope try_scope with try.
Notation "x <-- r ;; k" := (try_bind r (fun x => k))
  (at level 61, r at next level, right associativity) : try_scope.

(** ** JSON values and the two [json] library calls' data side *)

#[warnings="-register-all"] Inductive json : Set :=
| JNull
| JBool (b : bool)
| JInt (z : Z)
| JFloat (text : string)      (* carried as the text [json.dumps] writes *)
| JStr (s : string)
| JList (items : list json)
| JDict (members : list (string * json)).   (* insertion order *)

Definition str_Z (z : Z) : string := NilZero.string_of_int (Z.to_int z).

Definition hex_digit (n : nat) : ascii :=
  if (n <? 10)%nat then ascii_of_nat (48 + n) else ascii_of_nat (87 + n).

(** [json.encoder.py_encode_basestring_ascii], one character; exact on
    ASCII text. *)
Definition encode_char (c : ascii) : string :=
  let n := nat_of_ascii c in
  if (n =? 34)%nat then "\" ++ dq
  else if (n =? 92)%nat then "\\"
  else if (n =? 10)%nat then "\n"
  else if (n =? 13)%nat then "\r"
  else if (n =? 9)%nat then "\t"
  else if (n =? 8)%nat then "\b"
  else if (n =? 12)%nat then "\f"
  else if (32 <=? n)%nat && (n <=? 126)%nat then String c EmptyString
  else "\u00" ++ String (hex_digit (n / 16)) (String (hex_digit (n mod 16)) EmptyString).

Fixpoint encode_chars (s : string) : string :=
  match s with
  | EmptyString => EmptyString
  | String c r => encode_char c ++ encode_chars r
  end.

Definition encode_basestring_ascii (s : string) : string :=
  dq ++ encode_chars s ++ dq.

Fixpoint spaces (n : nat) : string :=
  match n with
  | O => EmptyString
  | S k => String " " (spaces k)
  end.

Definition newline_indent (level : nat) : string := nl ++ spaces (4 * level).

(** [json.dumps(v, indent=4)] at nesting depth [level]. *)
Fixpoint iterencode (level : nat) (v : json) : string :=
  match v with
  | JNull => "null"
  | JBool true => "true"
  | JBool false => "false"
  | JInt z => str_Z z
  | JFloat t => t
  | JStr s => encode_basestring_ascii s
  | JList [] => "[]"
  | JList (x :: r) =>
      "[" ++ newline_indent (S level) ++ iterencode (S level) x ++
      (fix rest (l : list json) : string :=
         match l with
         | [] => EmptyString
         | y :: l' => "," ++ newline_indent (S level) ++ iterencode (S level) y ++ rest l'
         end) r ++
      newline_indent level ++ "]"
  | JDict [] => "{}"
  | JDict ((k, x) :: r) =>
      "{" ++ newline_indent (S level) ++
      encode_basestring_ascii k ++ ": " ++ iterencode (S level) x ++
      (fix rest (l : list (string * json)) : string :=
         match l with
         | [] => EmptyString
         | (k', y) :: l' =>
             "," ++ newline_indent (S level) ++
             encode_basestring_ascii k' ++ ": " ++ iterencode (S level) y ++ rest l'
         end) r ++
      newline_indent level ++ "}"
  end.

Definition json_dumps_indent4 (v : json) : string := iterencode 0 v.

Definition type_name (v : json) : string :=
  match v with
  | JNull => "NoneType"
  | JBool _ => "bool"
  | JInt _ => "int"
  | JFloat _ => "float"
  | JStr _ => "str"
  | JList _ => "list"
  | JDict _ => "dict"
  end.

Definition not_subscriptable (v : json) : exn :=
  Exn TypeError (sq ++ type_name v ++ sq ++ " object is not subscriptable").

Fixpoint dict_get (key : string) (d : list (string * json)) : option json :=
  match d with
  | [] => None
  | (k, x) :: r => if k =? key then Some x else dict_get key r
  end.

(** [v[key]] for a [str] key, on a value [json.loads] returned. *)
Definition getitem_key (v : json) (key : string) : result json :=
  match v with
  | JDict d =>
      match dict_get key d with
      | Some x => ok x
      | None => raise (Exn KeyError (sq ++ key ++ sq))
      end
  | JList _ => raise (Exn TypeError "list indices must be integers or slices, not str")
  | JStr _ => raise (Exn TypeError "string indices must be integers, not 'str'")
  | _ => raise (not_subscriptable v)
  end.

(** [v[0]]. *)
Definition getitem_0 (v : json) : result json :=
  match v with
  | JList [] => raise (Exn IndexError "list index out of range")
  | JList (x :: _) => ok x
  | JStr EmptyString => raise (Exn IndexError "string index out of range")
  | JStr (String c _) => ok (JStr (String c EmptyString))
  | JDict _ => raise (Exn KeyError "0")     (* keys of a parsed object are all [str] *)
  | _ => raise (not_subscriptable v)
  end.

(** ** The outside world *)

(** How [from weasyprint import HTML, CSS] ends (lines 15-16): the names
    are bound, or an [ImportError] is raised, or the import raises
    something else (the package is there and a native library it loads is
    not: an [OSError]), which line 17 does not catch. *)
Inductive import_outcome : Set :=
| Imported
| ImportFailed                      (* [ImportError] *)
| ImportRaised (traceback : string). (* any other exception; the text the interpreter prints *)

(** How a [print] to standard output ends: the line is delivered; or the
    call raises; or the line stays in the stream's buffer and the flush at
    interpreter exit fails, which the interpreter reports on the error
    stream before it exits with status 120. *)
Inductive print_outcome : Set :=
| Delivered
| PrintRaises (e : exn)
| FlushFails (report : string).

Record world : Type := World {
  weasyprint_import : import_outcome;
  utc_now_isoformat : string;                       (* [datetime.now(timezone.utc).isoformat()] *)
  socket_gethostname : string;
  os_getlogin : option string;                      (* [None]: [OSError] *)
  os_geteuid : N;
  subprocess_run : list string -> result string;    (* [run(cmd, capture_output, text, check).stdout] *)
  json_loads : string -> result json;
  write_pdf : string -> string -> option exn;       (* [HTML(string=h).write_pdf(f)]; [None]: written *)
  stdout_print : string -> print_outcome            (* [print(text)] *)
}.

(** The import of lines 15-16 succeeds. *)
Definition weasyprint_found (w : world) : bool :=
  match weasyprint_import w with
  | Imported => true
  | _ => false
  end.

(** What the process does to the outside, in order. *)
Inductive event : Set :=
| Spawn (cmd : list string)
| WritePdf (target html : string) (failure : option exn)
| Stdout (text : string)
| Stderr (text : string).

Inductive outcome (A : Type) : Type :=
| Return (a : A)
| SystemExit (code : Z).
Arguments Return {A} a.
Arguments SystemExit {A} code.

Definition M (A : Type) : Type := (list event * outcome A)%type.

Definition ret {A : Type} (a : A) : M A := ([], Return a).
Definition bind {A B : Type} (m : M A) (k : A -> M B) : M B :=
  match m with
  | (t, Return a) => let (t', r) := k a in ((t ++ t')%list, r)
  | (t, SystemExit c) => (t, SystemExit c)
  end.
Definition emit (e : event) : M unit := ([e], Return tt).
Definition sys_exit {A : Type} (code : Z) : M A := ([], SystemExit code).
Definition print (text : string) : M unit := emit (Stdout text).
Definition print_stderr (text : string) : M unit := emit (Stderr text).

Declare Scope proc_scope.
Delimit Scope proc_scope with proc.
Notation "x <- m ;; k" := (bind m (fun x => k))
  (at level 61, m at next level, right associativity) : proc_scope.
Notation "m ;; k" := (bind m (fun _ => k))
  (at level 61, right associativity) : proc_scope.

(** Trace and exit status of a whole run. *)
Definition trace {A : Type} (m : M A) : list event := fst m.
Definition exit_status (m : M unit) : Z :=
  match snd m with
  | Return _ => 0%Z
  | SystemExit c => c
  end.

Definition stdout_of (t : list event) : list string :=
  flat_map (fun e => match e with Stdout s => [s] | _ => [] end) t.
Definition stderr_of (t : list event) : list string :=
  flat_map (fun e => match e with Stderr s => [s] | _ => [] end) t.
Definition spawned (t : list event) : list (list string) :=
  flat_map (fun e => match e with Spawn c => [c] | _ => [] end) t.
Definition write_attempts (t : list event) : list string :=
  flat_map (fun e => match e with WritePdf f _ _ => [f] | _ => [] end) t.
(** Files the run produced: the targets of the writes that completed. *)
Definition files_written (t : list event) : list string :=
  flat_map (fun e => match e with WritePdf f _ None => [f] | _ => [] end) t.

(** ** [get_device_details] (lines 22-37) *)

Definition lsblk_cmd (device_path : string) : list string :=
  ["lsblk"; "-d"; "-o"; "NAME,SIZE,MODEL,SERIAL,TYPE"; "--bytes"; "--json"; device_path].

(** The body of the [try] (lines 25-33). *)
Definition query_device (w : world) (device_path : string) : result string :=
  (stdout <-- subprocess_run w (lsblk_cmd device_path) ;;
   details_json <-- json_loads w stdout ;;
   blockdevices <-- getitem_key details_json "blockdevices" ;;
   record <-- getitem_0 blockdevices ;;
   ok (json_dumps_indent4 record))%try.

(** The tuple of the first [except] clause (line 34). *)
Definition is_query_error (c : exn_class) : bool :=
  match c with
  | CalledProcessError | FileNotFoundError | JSONDecodeError | IndexError => true
  | KeyError | TypeError | OtherException => false
  end.

Definition could_not_retrieve (device_path : string) (e : exn) : string :=
  "Could not retrieve device details for '" ++ device_path ++ "'." ++ nl ++
  "Reason: " ++ exn_str e.

Definition unexpected_error (e : exn) : string :=
  "An unexpected error occurred: " ++ exn_str e.

(** The string the [try]/[except] of lines 24-37 returns. *)
Definition device_details_text (w : world) (device_path : string) : string :=
  match query_device w device_path with
  | inr pretty_details => pretty_details
  | inl e =>
      if is_query_error (class_of e)
      then could_not_retrieve device_path e
      else unexpected_error e
  end.

Definition get_device_details (w : world) (device_path : string) : M string :=
  (emit (Spawn (lsblk_cmd device_path)) ;;
   ret (device_details_text w device_path))%proc.

(** The four ways a query fails that the specification enumerates, as
    they arise in [query_device]: the tool is missing, it exits non-zero,
    its answer does not parse, or the parsed answer lists no device. *)
Inductive enumerated_failure (w : world) (device_path : string) : exn -> Prop :=
| tool_missing (e : exn) :
    subprocess_run w (lsblk_cmd device_path) = raise e ->
    class_of e = FileNotFoundError ->
    enumerated_failure w device_path e
| nonzero_exit (e : exn) :
    subprocess_run w (lsblk_cmd device_path) = raise e ->
    class_of e = CalledProcessError ->
    enumerated_failure w device_path e
| malformed_response (out : string) (e : exn) :
    subprocess_run w (lsblk_cmd device_path) = ok out ->
    json_loads w out = raise e ->
    class_of e = JSONDecodeError ->
    enumerated_failure w device_path e
| missing_record (out : string) (v : json) :
    subprocess_run w (lsblk_cmd device_path) = ok out ->
    json_loads w out = ok v ->
    getitem_key v "blockdevices" = ok (JList []) ->
    enumerated_failure w device_path (Exn IndexError "list index out of range").

(** ** [generate_pdf_certificate] (lines 39-155) *)

(** Local [user] (lines 43-46). *)
Definition user (w : world) : string :=
  match os_getlogin w with
  | Some login => login
  | None => "uid:" ++ str_N (os_geteuid w)
  end.

(** Local [output_filename] (line 49). *)
Definition output_filename (output_base : string) : string :=
  output_base ++ "_certificate.pdf".

(** The names in scope where the f-string of line 62 is evaluated. *)
Definition locals (w : world)
    (device_path wipe_method verification_hash mode device_details : string) : scope :=
  fun x =>
    match x with
    | v_device_path => device_path
    | v_dry_run_html_banner => dry_run_html_banner mode
    | v_timestamp => utc_now_isoformat w
    | v_wipe_method => wipe_method
    | v_hostname => socket_gethostname w
    | v_user => user w
    | v_mode => mode
    | v_device_details => device_details
    | v_verification_hash => verification_hash
    end.

(** Local [html_content] (lines 62-147). *)
Definition html_content (w : world)
    (device_path wipe_method verification_hash mode device_details : string) : string :=
  joined_str (locals w device_path wipe_method verification_hash mode device_details)
             html_template.

(** The [except Exception as e] clause of lines 153-155. *)
Definition write_failed (target : string) (e : exn) : M unit :=
  (print_stderr ("Error: Could not write PDF certificate '" ++ target ++
                 "'. Reason: " ++ exn_str e) ;;
   sys_exit 1%Z)%proc.

(** The [print] of line 152, inside the [try]: an exception it raises goes
    to the same handler as one of the write.  The program ends after this
    [print], so a line that cannot be flushed at exit is accounted for
    here: the interpreter's report, and status 120. *)
Definition print_confirmation (w : world) (target : string) : M unit :=
  let text := "Successfully generated PDF certificate: " ++ target in
  match stdout_print w text with
  | Delivered => print text
  | PrintRaises e => write_failed target e
  | FlushFails report => (print_stderr report ;; sys_exit 120%Z)%proc
  end.

Definition generate_pdf_certificate (w : world)
    (device_path output_base wipe_method verification_hash mode : string) : M unit :=
  (device_details <- get_device_details w device_path ;;
   let html := html_content w device_path wipe_method verification_hash mode device_details in
   let target := output_filename output_base in
   match write_pdf w html target with
   | None =>
       emit (WritePdf target html None) ;;
       print_confirmation w target
   | Some e =>
       emit (WritePdf target html (Some e)) ;;
       write_failed target e
   end)%proc.

(** ** The script (lines 14-20 and 157-163) *)

Definition usage (argv0 : string) : string :=
  "Usage: " ++ argv0 ++ " <device_path> <output_base> " ++
  dq ++ "<wipe_method>" ++ dq ++ " <verification_hash> <mode>".

(** The [__main__] block; [sys.argv] is [argv0 :: args]. *)
Definition main (w : world) (argv0 : string) (args : list string) : M unit :=
  match args with
  | [dev_path; out_base; method; v_hash; mode] =>
      generate_pdf_certificate w dev_path out_base method v_hash mode
  | _ =>
      (print_stderr (usage argv0) ;; sys_exit 1%Z)%proc
  end.

(** The whole file: the import guard, then the [__main__] block.  An
    exception of the import that is no [ImportError] is not caught: the
    interpreter prints the traceback and exits with status 1. *)
Definition script (w : world) (argv0 : string) (args : list string) : M unit :=
  match weasyprint_import w with
  | Imported => main w argv0 args
  | ImportFailed =>
      (print_stderr "Error: WeasyPrint library not found." ;;
       print_stderr "Please install it by running: pip install WeasyPrint" ;;
       sys_exit 1%Z)%proc
  | ImportRaised traceback =>
      (print_stderr traceback ;; sys_exit 1%Z)%proc
  end.

(** ** The specification's wording, for comparison with the code *)

(** The escaping the specification asks of the renderer: the three
    structure characters it names become character references. *)
Definition spec_escape_char (c : ascii) : string :=
  let n := nat_of_ascii c in
  if (n =? 60)%nat then "&lt;"
  else if (n =? 62)%nat then "&gt;"
  else if (n =? 38)%nat then "&amp;"
  else String c EmptyString.

Fixpoint spec_escape (s : string) : string :=
  match s with
  | EmptyString => EmptyString
  | String c r => spec_escape_char c ++ spec_escape r
  end.

(** The f-string as the specification's renderer would serialise it:
    every formatted text value escaped, the program's own banner markup
    left as it is. *)
Definition spec_part_str (rho : scope) (p : fpart) : string :=
  match p with
  | Constant s => s
  | FormattedValue (Name v_dry_run_html_banner) => rho v_dry_run_html_banner
  | FormattedValue e => spec_escape (eval rho e)
  end.

Fixpoint spec_joined_str (rho : scope) (ps : list fpart) : string :=
  match ps with
  | [] => EmptyString
  | p :: r => spec_part_str rho p ++ spec_joined_str rho r
  end.

Definition spec_html_content (w : world)
    (device_path wipe_method verification_hash mode device_details : string) : string :=
  spec_joined_str
    (locals w device_path wipe_method verification_hash mode device_details)
    html_template.

(** The one-line failure text of the specification's section 4.1. *)
Definition spec_could_not_retrieve (device_path : string) (e : exn) : string :=
  "Could not retrieve device details for '" ++ device_path ++ "'. Reason: " ++ exn_str e.

(** The mode shown according to the specification's section 4.3: one of
    DRY and REAL. *)
Definition spec_normalized_mode (mode : string) : string :=
  if lower mode =? "dry" then "DRY" else "REAL".

(** ** Sample worlds *)

Definition sda_stdout : string :=
  "{" ++ dq ++ "blockdevices" ++ dq ++ ": [{" ++
  dq ++ "name" ++ dq ++ ":" ++ dq ++ "sda" ++ dq ++ ", " ++
  dq ++ "size" ++ dq ++ ":500107862016, " ++
  dq ++ "model" ++ dq ++ ":" ++ dq ++ "<b>DISK</b>" ++ dq ++ ", " ++
  dq ++ "serial" ++ dq ++ ":null, " ++
  dq ++ "type" ++ dq ++ ":" ++ dq ++ "disk" ++ dq ++ "}]}".

(** A machine with the disk present, a terminal login and a writable
    working directory. *)
Definition w_sda : world :=
  {| weasyprint_import := Imported;
     utc_now_isoformat := "2024-05-01T10:00:00.000000+00:00";
     socket_gethostname := "wipehost";
     os_getlogin := Some "alice";
     os_geteuid := 1000%N;
     subprocess_run := fun _ => ok sda_stdout;
     json_loads := fun s =>
       if s =? sda_stdout
       then ok (JDict [("blockdevices",
                        JList [JDict [("name", JStr "sda"); ("size", JInt 500107862016);
                                      ("model", JStr "<b>DISK</b>"); ("serial", JNull);
                                      ("type", JStr "disk")]])])
       else raise (Exn JSONDecodeError "Expecting value: line 1 column 1 (char 0)");
     write_pdf := fun _ _ => None;
     stdout_print := fun _ => Delivered |}.

(** The end-to-end scenario of the specification: no such device, no
    controlling terminal, run as root. *)
Definition w_missing : world :=
  {| weasyprint_import := Imported;
     utc_now_isoformat := "2024-05-01T10:00:00.000000+00:00";
     socket_gethostname := "wipehost";
     os_getlogin := None;
     os_geteuid := 0%N;
     subprocess_run := fun _ =>
       raise (Exn CalledProcessError "Command 'lsblk' returned non-zero exit status 32.");
     json_loads := fun _ => raise (Exn JSONDecodeError "Expecting value: line 1 column 1 (char 0)");
     write_pdf := fun _ _ => None;
     stdout_print := fun _ => Delivered |}.

(** As [w_sda], in a directory where nothing can be written. *)
Definition w_readonly : world :=
  {| weasyprint_import := Imported;
     utc_now_isoformat := utc_now_isoformat w_sda;
     socket_gethostname := socket_gethostname w_sda;
     os_getlogin := os_getlogin w_sda;
     os_geteuid := os_geteuid w_sda;
     subprocess_run := subprocess_run w_sda;
     json_loads := json_loads w_sda;
     write_pdf := fun _ target =>
       Some (Exn OtherException ("[Errno 13] Permission denied: '" ++ target ++ "'"));
     stdout_print := fun _ => Delivered |}.

(** As [w_sda], with a tool that answers with an object that has no
    [blockdevices] member. *)
Definition w_nokey : world :=
  {| weasyprint_import := Imported;
     utc_now_isoformat := utc_now_isoformat w_sda;
     socket_gethostname := socket_gethostname w_sda;
     os_getlogin := os_getlogin w_sda;
     os_geteuid := os_geteuid w_sda;
     subprocess_run := fun _ => ok "{}";
     json_loads := fun _ => ok (JDict []);
     write_pdf := write_pdf w_sda;
     stdout_print := fun _ => Delivered |}.

(** As [w_sda], without the WeasyPrint package. *)
Definition w_noweasy : world :=
  {| weasyprint_import := ImportFailed;
     utc_now_isoformat := utc_now_isoformat w_sda;
     socket_gethostname := socket_gethostname w_sda;
     os_getlogin := os_getlogin w_sda;
     os_geteuid := os_geteuid w_sda;
     subprocess_run := subprocess_run w_sda;
     json_loads := json_loads w_sda;
     write_pdf := write_pdf w_sda;
     stdout_print := fun _ => Delivered |}.

(** As [w_sda], with a tool that answers with an array instead of an
    object. *)
Definition w_array : world :=
  {| weasyprint_import := Imported;
     utc_now_isoformat := utc_now_isoformat w_sda;
     socket_gethostname := socket_gethostname w_sda;
     os_getlogin := os_getlogin w_sda;
     os_geteuid := os_geteuid w_sda;
     subprocess_run := fun _ => ok "[]";
     json_loads := fun _ => ok (JList []);
     write_pdf := write_pdf w_sda;
     stdout_print := fun _ => Delivered |}.

(** As [w_missing], run by a service account. *)
Definition w_daemon : world :=
  {| weasyprint_import := Imported;
     utc_now_isoformat := utc_now_isoformat w_missing;
     socket_gethostname := socket_gethostname w_missing;
     os_getlogin := None;
     os_geteuid := 33%N;
     subprocess_run := subprocess_run w_missing;
     json_loads := json_loads w_missing;
     write_pdf := write_pdf w_missing;
     stdout_print := fun _ => Delivered |}.



(** As [w_sda], with WeasyPrint installed and a native library of it
    missing: the import raises [OSError]. *)
Definition w_import_oserror : world :=
  {| weasyprint_import :=
       ImportRaised ("Traceback (most recent call last):" ++ nl ++
                     "OSError: cannot load library 'gobject-2.0-0'");
     utc_now_isoformat := utc_now_isoformat w_sda;
     socket_gethostname := socket_gethostname w_sda;
     os_getlogin := os_getlogin w_sda;
     os_geteuid := os_geteuid w_sda;
     subprocess_run := subprocess_run w_sda;
     json_loads := json_loads w_sda;
     write_pdf := write_pdf w_sda;
     stdout_print := fun _ => Delivered |}.

(** ** Auxiliary notions for the further properties *)

(** The expressions an f-string formats, in order. *)
Fixpoint formatted (ps : list fpart) : list expr :=
  match ps with
  | [] => []
  | Constant _ :: r => formatted r
  | FormattedValue e :: r => e :: formatted r
  end.

(** The text of the [TypeError] raised by [v["blockdevices"]] on a value
    that is not an object. *)
Definition not_an_object_text (v : json) : string :=
  match v with
  | JList _ => "list indices must be integers or slices, not str"
  | JStr _ => "string indices must be integers, not 'str'"
  | _ => sq ++ type_name v ++ sq ++ " object is not subscriptable"
  end.

Definition is_object (v : json) : bool :=
  match v with
  | JDict _ => true
  | _ => false
  end.

(** The spellings of [dry]. *)
Definition dry_spellings : list string :=
  ["dry"; "drY"; "dRy"; "dRY"; "Dry"; "DrY"; "DRy"; "DRY"].

(** The needles occur in the text one after the other, without overlap. *)
Fixpoint ordered (hay : string) (needles : list string) : Prop :=
  match needles with
  | [] => True
  | n :: r => exists pre post, hay = pre ++ n ++ post /\ ordered post r
  end.

(** What is left of [ps] after the first run of parts equal to [seg]. *)
Fixpoint after_segment (seg ps : list fpart) : option (list fpart) :=
  if starts_with seg ps then Some (skipn (List.length seg) ps)
  else
    match ps with
    | [] => None
    | _ :: r => after_segment seg r
    end.

Fixpoint segments_in_order (segs : list (list fpart)) (ps : list fpart) : bool :=
  match segs with
  | [] => true
  | seg :: r =>
      match after_segment seg ps with
      | Some rest => segments_in_order r rest
      | None => false
      end
  end.

(** * Properties *)

(** ** Text *)

Lemma append_nil_r (s : string) : s ++ EmptyString = s.
Proof. induction s as [|c r IH]; simpl; [reflexivity | now rewrite IH]. Qed.

Lemma append_assoc (a b c : string) : (a ++ b) ++ c = a ++ b ++ c.
Proof. induction a as [|x r IH]; simpl; [reflexivity | now rewrite IH]. Qed.

Lemma count_app (c : ascii) (a b : string) :
  count c (a ++ b) = count c a + count c b.
Proof. induction a as [|x r IH]; simpl; [reflexivity | rewrite IH; lia]. Qed.

Lemma contains_refl (s : string) : contains s s.
Proof. exists EmptyString, EmptyString. simpl. now rewrite append_nil_r. Qed.

Lemma contains_app_l (a b n : string) : contains a n -> contains (a ++ b) n.
Proof.
  intros (pre & post & ->). exists pre, (post ++ b).
  now rewrite !append_assoc.
Qed.

Lemma contains_app_r (a b n : string) : contains b n -> contains (a ++ b) n.
Proof.
  intros (pre & post & ->). exists (a ++ pre), post.
  now rewrite !append_assoc.
Qed.

Lemma contains_trans (a b c : string) : contains a b -> contains b c -> contains a c.
Proof.
  intros (p1 & q1 & ->) (p2 & q2 & ->). exists (p1 ++ p2), (q2 ++ q1).
  now rewrite !append_assoc.
Qed.

Lemma prefix_app (a b : string) : prefix a b = true <-> exists r, b = a ++ r.
Proof.
  revert b; induction a as [|x a IH]; intros b; simpl.
  - split; [intros _; now exists b | intros _; now destruct b].
  - destruct b as [|y b]; [split; [discriminate | intros (r & H); discriminate] |].
    simpl. destruct (ascii_dec x y) as [-> | Hne].
    + rewrite IH. split; intros (r & H); exists r; [now rewrite H | now inversion H].
    + split; [discriminate | intros (r & H); inversion H; congruence].
Qed.

Lemma infixb_contains (needle hay : string) :
  infixb needle hay = true <-> contains hay needle.
Proof.
  induction hay as [|c hay IH].
  - cbn [infixb]. rewrite orb_false_r, prefix_app. split.
    + intros (r & H). exists EmptyString, r. exact H.
    + intros ([|x pre] & post & H); [now exists post | discriminate].
  - cbn [infixb]. rewrite orb_true_iff, IH, prefix_app. split.
    + intros [(r & H) | (pre & post & H)].
      * exists EmptyString, r. exact H.
      * exists (String c pre), post. simpl. now rewrite H.
    + intros ([|x pre] & post & H).
      * left. now exists post.
      * right. exists pre, post. now inversion H.
Qed.

Lemma infixb_absent (needle hay : string) :
  infixb needle hay = false -> ~ contains hay needle.
Proof. intros H C. apply infixb_contains in C. congruence. Qed.

(** ** Case maps *)

Lemma upper_lower_char (c : ascii) : upper_char (lower_char c) = upper_char c.
Proof. destruct c as [[] [] [] [] [] [] [] []]; vm_compute; reflexivity. Qed.

Lemma lower_upper_char (c : ascii) : lower_char (upper_char c) = lower_char c.
Proof. destruct c as [[] [] [] [] [] [] [] []]; vm_compute; reflexivity. Qed.

Lemma upper_lower (s : string) : upper (lower s) = upper s.
Proof.
  induction s as [|c r IH]; [reflexivity |].
  unfold upper, lower in *. simpl. now rewrite upper_lower_char, IH.
Qed.

Lemma lower_upper (s : string) : lower (upper s) = lower s.
Proof.
  induction s as [|c r IH]; [reflexivity |].
  unfold upper, lower in *. simpl. now rewrite lower_upper_char, IH.
Qed.

Lemma lower_dry_upper (mode : string) : lower mode = "dry" -> upper mode = "DRY".
Proof. intros H. rewrite <- upper_lower, H. reflexivity. Qed.

Lemma upper_real_iff (mode : string) : upper mode = "REAL" <-> lower mode = "real".
Proof.
  split; intros H.
  - rewrite <- lower_upper, H. reflexivity.
  - rewrite <- upper_lower, H. reflexivity.
Qed.

(** ** f-strings *)

Lemma joined_str_app (rho : scope) (a b : list fpart) :
  joined_str rho (a ++ b) = joined_str rho a ++ joined_str rho b.
Proof.
  induction a as [|p r IH]; simpl; [reflexivity |].
  now rewrite IH, append_assoc.
Qed.

(** A run of consecutive parts of an f-string shows up in its value. *)
Lemma joined_str_segment (rho : scope) (a seg b : list fpart) :
  contains (joined_str rho (a ++ seg ++ b)) (joined_str rho seg).
Proof.
  exists (joined_str rho a), (joined_str rho b). now rewrite !joined_str_app.
Qed.

Lemma starts_with_app (seg ps : list fpart) :
  starts_with seg ps = true -> exists b, ps = (seg ++ b)%list.
Proof.
  revert ps; induction seg as [|a seg IH]; intros ps H.
  - now exists ps.
  - destruct ps as [|b ps]; [discriminate |]. simpl in H.
    destruct (fpart_eq_dec a b) as [-> |]; [| discriminate].
    destruct (IH _ H) as (r & ->). now exists r.
Qed.

Lemma is_segment_app (seg ps : list fpart) :
  is_segment seg ps = true -> exists a b, ps = (a ++ seg ++ b)%list.
Proof.
  induction ps as [|p ps IH]; cbn [is_segment]; rewrite orb_true_iff.
  - intros [H | H]; [| discriminate].
    destruct (starts_with_app _ _ H) as (b & E). now exists [], b.
  - intros [H | H].
    + destruct (starts_with_app _ _ H) as (b & E). now exists [], b.
    + destruct (IH H) as (a & b & ->). now exists (p :: a), b.
Qed.

Lemma joined_str_shows (rho : scope) (seg ps : list fpart) (needle : string) :
  is_segment seg ps = true ->
  contains (joined_str rho seg) needle ->
  contains (joined_str rho ps) needle.
Proof.
  intros H C. destruct (is_segment_app _ _ H) as (a & b & ->).
  eapply contains_trans; [apply joined_str_segment | exact C].
Qed.

Lemma count_joined_str (c : ascii) (rho : scope) (ps : list fpart) :
  count c (joined_str rho ps) = count_const c ps + count_values c rho ps.
Proof.
  induction ps as [|[s | e] r IH]; simpl; [reflexivity | |];
    rewrite count_app, IH; lia.
Qed.

Lemma joined_str_without (rho : scope) (x : var) (ps : list fpart) :
  rho x = EmptyString -> joined_str rho ps = joined_str rho (without x ps).
Proof.
  intros E. induction ps as [|p r IH]; [reflexivity |].
  unfold without in *. simpl.
  destruct (fpart_eq_dec p (FormattedValue (Name x))) as [-> |]; simpl.
  - now rewrite E, IH.
  - now rewrite IH.
Qed.

Lemma clash_prefix (needle t x : string) :
  clash needle t = true -> prefix needle (t ++ x) = false.
Proof.
  revert t; induction needle as [|a n IH]; intros t H; [discriminate |].
  destruct t as [|b t]; [discriminate |]. simpl in *.
  destruct (ascii_dec a b) as [-> | Hne].
  - rewrite Ascii.eqb_refl in H. now apply IH.
  - reflexivity.
Qed.

Lemma clear_of_infix (needle s x : string) :
  clear_of needle s = true -> infixb needle x = false -> infixb needle (s ++ x) = false.
Proof.
  intros C X. induction s as [|c r IH]; [exact X |].
  cbn [clear_of] in C. apply andb_true_iff in C as (C1 & C2).
  change (String c r ++ x) with (String c (r ++ x)). cbn [infixb].
  change (String c (r ++ x)) with (String c r ++ x).
  now rewrite (clash_prefix _ _ x C1), (IH C2).
Qed.

(** A value without the character a needle starts with starts no
    occurrence of it. *)
Lemma value_infix (c : ascii) (needle v x : string) :
  count c v = 0 ->
  infixb (String c needle) x = false ->
  infixb (String c needle) (v ++ x) = false.
Proof.
  intros V X. induction v as [|d r IH]; [exact X |].
  simpl in V. destruct (Ascii.eqb c d) eqn:E; [discriminate |].
  change (String d r ++ x) with (String d (r ++ x)). cbn [infixb].
  rewrite (IH V), orb_false_r. simpl.
  destruct (ascii_dec c d) as [-> |]; [| reflexivity].
  now rewrite Ascii.eqb_refl in E.
Qed.

(** An f-string whose literal parts are clear of a needle, and whose values
    lack the needle's first character, does not contain the needle. *)
Lemma joined_str_lacks (c : ascii) (needle : string) (rho : scope) (ps : list fpart) :
  consts_clear (String c needle) ps = true ->
  count_values c rho ps = 0 ->
  infixb (String c needle) (joined_str rho ps) = false.
Proof.
  induction ps as [|[s | e] r IH]; intros C V.
  - reflexivity.
  - cbn [consts_clear] in C. apply andb_true_iff in C as (C1 & C2).
    simpl. apply clear_of_infix; [exact C1 | now apply IH].
  - cbn [consts_clear count_values] in *.
    simpl. apply value_infix; [lia | apply IH; [exact C | lia]].
Qed.

Lemma count_upper_lt (s : string) : count "<" (upper s) = count "<" s.
Proof.
  induction s as [|c r IH]; [reflexivity |].
  unfold upper in *. simpl. rewrite IH. f_equal.
  destruct c as [[] [] [] [] [] [] [] []]; reflexivity.
Qed.

(** Closes [contains (a ++ needle ++ b) needle] up to bracketing. *)
Ltac framed pre post :=
  exists pre, post; cbn; rewrite ?append_assoc; reflexivity.

Ltac in_template parts pre post :=
  apply joined_str_shows with (seg := parts);
  [vm_compute; reflexivity | framed pre post].

(** ** The document *)

Lemma banner_dry (mode : string) :
  lower mode = "dry" -> dry_run_html_banner mode = dry_run_banner_text.
Proof. intros H. unfold dry_run_html_banner. now rewrite H. Qed.

Lemma banner_not_dry (mode : string) :
  lower mode <> "dry" -> dry_run_html_banner mode = EmptyString.
Proof.
  intros H. unfold dry_run_html_banner.
  now rewrite (proj2 (String.eqb_neq _ _) H).
Qed.

Section Document.

Variable w : world.
Variables device_path wipe_method verification_hash mode device_details : string.

Let doc : string :=
  html_content w device_path wipe_method verification_hash mode device_details.
Let rho : scope :=
  locals w device_path wipe_method verification_hash mode device_details.

Lemma shows_title :
  contains doc ("<title>Secure Data Wipe Certificate for " ++ device_path ++ "</title>").
Proof.
  in_template [tx "        <title>Secure Data Wipe Certificate for "; fv v_device_path;
               ln "</title>"] "        " nl.
Qed.

Lemma shows_timestamp :
  contains doc ("<b>Wipe Timestamp (UTC):</b> <span>" ++ utc_now_isoformat w ++ "</span>").
Proof.
  in_template [tx "                <b>Wipe Timestamp (UTC):</b> <span>"; fv v_timestamp;
               ln "</span>"] "                " nl.
Qed.

Lemma shows_wipe_method :
  contains doc ("<b>Wipe Method Employed:</b> <span>" ++ wipe_method ++ "</span>").
Proof.
  in_template [tx "                <b>Wipe Method Employed:</b> <span>"; fv v_wipe_method;
               ln "</span>"] "                " nl.
Qed.

Lemma shows_hostname :
  contains doc ("<b>Executing Hostname:</b> <span>" ++ socket_gethostname w ++ "</span>").
Proof.
  in_template [tx "                <b>Executing Hostname:</b> <span>"; fv v_hostname;
               ln "</span>"] "                " nl.
Qed.

Lemma shows_user :
  contains doc ("<b>Executing User:</b> <span>" ++ user w ++ "</span>").
Proof.
  in_template [tx "                <b>Executing User:</b> <span>"; fv v_user;
               ln "</span>"] "                " nl.
Qed.

Lemma shows_mode :
  contains doc ("<b>Execution Mode:</b> <span>" ++ upper mode ++ "</span>").
Proof.
  in_template [tx "                <b>Execution Mode:</b> <span>"; up v_mode;
               ln "</span>"] "                " nl.
Qed.

Lemma shows_device_path :
  contains doc ("<b>Device Path:</b> <span>" ++ device_path ++ "</span>").
Proof.
  in_template [tx "                <b>Device Path:</b> <span>"; fv v_device_path;
               ln "</span>"] "                " nl.
Qed.

(** The descriptor block, between the device grid and the next heading. *)
Lemma shows_device_details :
  contains doc
    ("<pre class=" ++ dq ++ "mono" ++ dq ++ ">" ++ device_details ++ "</pre>" ++ nl ++ nl ++
     "            <h2>Verification</h2>").
Proof.
  in_template [tx ("            <pre class=" ++ dq ++ "mono" ++ dq ++ ">");
               fv v_device_details; ln "</pre>"; ln EmptyString;
               ln "            <h2>Verification</h2>"] "            " nl.
Qed.

Lemma shows_verification_hash :
  contains doc
    ("<p>Post-wipe sample hash (SHA256) of the first 4096 bytes:</p>" ++ nl ++
     "            <pre class=" ++ dq ++ "mono" ++ dq ++ ">" ++ verification_hash ++ "</pre>").
Proof.
  in_template [ln "            <p>Post-wipe sample hash (SHA256) of the first 4096 bytes:</p>";
               tx ("            <pre class=" ++ dq ++ "mono" ++ dq ++ ">");
               fv v_verification_hash; ln "</pre>"] "            " nl.
Qed.

(** The banner field sits right after the opening of the container. *)
Lemma shows_banner_field :
  contains doc
    ("<div class=" ++ dq ++ "container" ++ dq ++ ">" ++ nl ++ "            " ++
     dry_run_html_banner mode ++ nl ++
     "            <h1>Secure Data Wipe Certificate</h1>").
Proof.
  in_template [ln ("        <div class=" ++ dq ++ "container" ++ dq ++ ">");
               tx "            "; fv v_dry_run_html_banner; ln EmptyString;
               ln "            <h1>Secure Data Wipe Certificate</h1>"] "        " nl.
Qed.

(** Every character of every formatted value reaches the document: the
    occurrences of a character are those of the fixed markup plus those
    of the values, field by field. *)
Lemma count_doc (c : ascii) :
  count c doc =
  count_const c html_template +
  (count c device_path + count c (dry_run_html_banner mode) +
   count c (utc_now_isoformat w) + count c wipe_method +
   count c (socket_gethostname w) + count c (user w) + count c (upper mode) +
   count c device_path + count c device_details + count c verification_hash).
Proof.
  unfold doc, html_content. rewrite count_joined_str. f_equal.
  cbn. lia.
Qed.

(** Unless the mode is [dry], the banner's heading can only come from
    markup in an inserted value. *)
Lemma lacks_banner_heading :
  lower mode <> "dry" ->
  count "<" (device_path ++ utc_now_isoformat w ++ wipe_method ++ socket_gethostname w ++
             user w ++ mode ++ device_details ++ verification_hash) = 0 ->
  ~ contains doc "<h2>DRY RUN MODE</h2>".
Proof.
  intros M V. apply infixb_absent. unfold doc, html_content.
  apply joined_str_lacks; [vm_compute; reflexivity |].
  rewrite !count_app in V. cbn.
  rewrite (banner_not_dry _ M), count_upper_lt. simpl. lia.
Qed.

End Document.

(** ** Runs of the program *)

(** What a call of [generate_pdf_certificate] does, whichever way the
    write and the confirmation go: one query, one write of the document to
    the derived name, one message. *)
Lemma generate_run (w : world)
    (device_path output_base wipe_method verification_hash mode : string) :
  let html := html_content w device_path wipe_method verification_hash mode
                (device_details_text w device_path) in
  let target := output_filename output_base in
  generate_pdf_certificate w device_path output_base wipe_method verification_hash mode =
  match write_pdf w html target with
  | None =>
      match stdout_print w ("Successfully generated PDF certificate: " ++ target) with
      | Delivered =>
          ([Spawn (lsblk_cmd device_path); WritePdf target html None;
            Stdout ("Successfully generated PDF certificate: " ++ target)], Return tt)
      | PrintRaises e =>
          ([Spawn (lsblk_cmd device_path); WritePdf target html None;
            Stderr ("Error: Could not write PDF certificate '" ++ target ++
                    "'. Reason: " ++ exn_str e)], SystemExit 1%Z)
      | FlushFails report =>
          ([Spawn (lsblk_cmd device_path); WritePdf target html None; Stderr report],
           SystemExit 120%Z)
      end
  | Some e =>
      ([Spawn (lsblk_cmd device_path); WritePdf target html (Some e);
        Stderr ("Error: Could not write PDF certificate '" ++ target ++
                "'. Reason: " ++ exn_str e)], SystemExit 1%Z)
  end.
Proof.
  cbv zeta. unfold generate_pdf_certificate, get_device_details, print_confirmation.
  cbv beta iota delta [bind emit ret].
  destruct (write_pdf w _ _) as [e|]; [reflexivity |].
  cbv zeta. destruct (stdout_print w _) as [|e|report]; reflexivity.
Qed.

Lemma main_five (w : world) (argv0 dev_path out_base method v_hash mode : string) :
  main w argv0 [dev_path; out_base; method; v_hash; mode] =
  generate_pdf_certificate w dev_path out_base method v_hash mode.
Proof. reflexivity. Qed.

(** The test of line 158, [len(sys.argv) != 6], on [sys.argv = argv0 :: args]. *)
Lemma main_arity (w : world) (argv0 : string) (args : list string) :
  List.length (argv0 :: args) <> 6 ->
  main w argv0 args = ([Stderr (usage argv0)], SystemExit 1%Z).
Proof.
  intros H. destruct args as [|a [|b [|c [|d [|e [|f r]]]]]]; try reflexivity.
  simpl in H. lia.
Qed.

Lemma script_installed (w : world) (argv0 : string) (args : list string) :
  weasyprint_found w = true -> script w argv0 args = main w argv0 args.
Proof.
  unfold weasyprint_found, script.
  destruct (weasyprint_import w); [reflexivity | discriminate | discriminate].
Qed.

(** Without the package the script stops at its import guard. *)
Lemma script_not_installed (w : world) (argv0 : string) (args : list string) :
  weasyprint_import w = ImportFailed ->
  script w argv0 args =
  ([Stderr "Error: WeasyPrint library not found.";
    Stderr "Please install it by running: pip install WeasyPrint"], SystemExit 1%Z).
Proof. intros H. unfold script. now rewrite H. Qed.

(** An import that raises something else than [ImportError] ends in the
    interpreter's traceback. *)
Lemma script_import_raised (w : world) (argv0 : string) (args : list string)
    (traceback : string) :
  weasyprint_import w = ImportRaised traceback ->
  script w argv0 args = ([Stderr traceback], SystemExit 1%Z).
Proof. intros H. unfold script. now rewrite H. Qed.

(** The document of a five-argument run is the one [html_content] builds
    from the arguments and the device text. *)
Lemma main_writes_document (w : world) (argv0 dev_path out_base method v_hash mode : string) :
  exists failure,
    In (WritePdf (output_filename out_base)
          (html_content w dev_path method v_hash mode (device_details_text w dev_path)) failure)
       (trace (main w argv0 [dev_path; out_base; method; v_hash; mode])).
Proof.
  rewrite main_five, generate_run. cbv zeta.
  destruct (write_pdf w _ _) as [e|]; [| destruct (stdout_print w _)];
    eexists; simpl; right; left; reflexivity.
Qed.

(** ** C1: inserted text and markup *)

(** C1, as stated, fails: on the machine [w_sda], a wipe method
    [<script>] and a disk whose model string is [<b>DISK</b>] reach the
    document unescaped.  The document differs from the one the
    specification's escaping renderer would produce, it holds the method
    and the model as markup, holds no character reference for them, and
    has one more [<] than the same run with the method [script]. *)
Lemma markup_reaches_document :
  let dd := device_details_text w_sda "/dev/sda" in
  let doc := html_content w_sda "/dev/sda" "<script>" "a1b2" "real" dd in
  doc <> spec_html_content w_sda "/dev/sda" "<script>" "a1b2" "real" dd /\
  contains doc "<span><script></span>" /\
  contains doc ("model" ++ dq ++ ": " ++ dq ++ "<b>DISK</b>") /\
  ~ contains doc "&lt;" /\
  count "<" doc = S (count "<" (html_content w_sda "/dev/sda" "script" "a1b2" "real" dd)) /\
  exists failure,
    In (WritePdf "job_certificate.pdf" doc failure)
       (trace (main w_sda "gen_cert.py" ["/dev/sda"; "job"; "<script>"; "a1b2"; "real"])).
Proof.
  cbv zeta. split; [| split; [| split; [| split; [| split]]]].
  - apply (proj1 (String.eqb_neq _ _)). vm_compute. reflexivity.
  - apply infixb_contains. vm_compute. reflexivity.
  - apply infixb_contains. vm_compute. reflexivity.
  - apply infixb_absent. vm_compute. reflexivity.
  - vm_compute. reflexivity.
  - exists None. vm_compute. right. left. reflexivity.
Qed.

(** The structure characters of the fixed markup. *)
Example fixed_markup_counts :
  count_const "<" html_template = 56 /\ count_const ">" html_template = 56 /\
  count_const "&" html_template = 0.
Proof. repeat split. Qed.

(** C1, amended: every caller-supplied string (device path, wipe method,
    verification hash, and the mode uppercased) and the device descriptor
    text is inserted into the markup verbatim, at its place, with no
    escaping: for every character, '<', '>' and '&' among them, the
    document has the occurrences of the fixed markup plus those of the
    inserted values.  With the text of [get_device_details] as descriptor,
    this is the document a run hands to the renderer. *)
Theorem inserted_text_is_verbatim (w : world)
    (device_path wipe_method verification_hash mode device_details : string) :
  let doc := html_content w device_path wipe_method verification_hash mode device_details in
  (forall argv0 out_base : string,
     exists failure,
       In (WritePdf (output_filename out_base)
             (html_content w device_path wipe_method verification_hash mode
                (device_details_text w device_path)) failure)
          (trace (main w argv0 [device_path; out_base; wipe_method; verification_hash; mode]))) /\
  contains doc ("<title>Secure Data Wipe Certificate for " ++ device_path ++ "</title>") /\
  contains doc ("<b>Wipe Method Employed:</b> <span>" ++ wipe_method ++ "</span>") /\
  contains doc ("<b>Execution Mode:</b> <span>" ++ upper mode ++ "</span>") /\
  contains doc ("<b>Device Path:</b> <span>" ++ device_path ++ "</span>") /\
  contains doc
    ("<pre class=" ++ dq ++ "mono" ++ dq ++ ">" ++ device_details ++ "</pre>" ++ nl ++ nl ++
     "            <h2>Verification</h2>") /\
  contains doc
    ("<p>Post-wipe sample hash (SHA256) of the first 4096 bytes:</p>" ++ nl ++
     "            <pre class=" ++ dq ++ "mono" ++ dq ++ ">" ++ verification_hash ++ "</pre>") /\
  (forall c : ascii,
     count c doc =
     count_const c html_template +
     (count c device_path + count c (dry_run_html_banner mode) +
      count c (utc_now_isoformat w) + count c wipe_method +
      count c (socket_gethostname w) + count c (user w) + count c (upper mode) +
      count c device_path + count c device_details + count c verification_hash)).
Proof.
  cbv zeta.
  split; [intros; apply main_writes_document |].
  split; [apply shows_title |].
  split; [apply shows_wipe_method |].
  split; [apply shows_mode |].
  split; [apply shows_device_path |].
  split; [apply shows_device_details |].
  split; [apply shows_verification_hash |].
  intros c. apply count_doc.
Qed.

(** ** C3, C4: the mode *)

Example lower_dry_spellings :
  lower "dry" = "dry" /\ lower "DRY" = "dry" /\ lower "Dry" = "dry" /\
  lower "real" <> "dry" /\ lower EmptyString <> "dry" /\ lower "foo" <> "dry".
Proof. repeat split; try reflexivity; discriminate. Qed.

(** C3, as stated, fails in its second half: with the mode [real] and a
    wipe method that is the banner's markup, the banner field is empty and
    the document still holds the whole banner, division and heading. *)
Lemma banner_without_dry_mode :
  let doc := html_content w_sda "/dev/sda" dry_run_banner_text "a1b2" "real"
               (device_details_text w_sda "/dev/sda") in
  lower "real" <> "dry" /\
  dry_run_html_banner "real" = EmptyString /\
  contains doc dry_run_banner_text /\
  contains doc ("<div class=" ++ dq ++ "dry-run-banner" ++ dq ++ ">") /\
  contains doc "<h2>DRY RUN MODE</h2>" /\
  contains doc "<b>Execution Mode:</b> <span>REAL</span>".
Proof.
  cbv zeta. split; [discriminate |]. split; [reflexivity |].
  repeat split; apply infixb_contains; vm_compute; reflexivity.
Qed.

(** C3, amended: when the mode is [dry] up to case, the document holds the
    dry-run banner at the banner's place (the division of class
    [dry-run-banner], its heading DRY RUN MODE and its sentence) and shows
    the mode as DRY; for any other mode the program inserts no banner: the
    banner field is empty, the document is the template joined without it,
    the main heading follows the opening of the container directly, and
    the document holds no banner heading provided no inserted value holds
    a [<]; the mode shown is the input uppercased. *)
Theorem mode_selects_banner (w : world)
    (device_path wipe_method verification_hash mode device_details : string) :
  let doc := html_content w device_path wipe_method verification_hash mode device_details in
  let rho := locals w device_path wipe_method verification_hash mode device_details in
  (lower mode = "dry" ->
     dry_run_html_banner mode = dry_run_banner_text /\
     contains doc dry_run_banner_text /\
     contains doc
       ("<div class=" ++ dq ++ "container" ++ dq ++ ">" ++ nl ++ "            " ++
        dry_run_banner_text ++ nl ++ "            <h1>Secure Data Wipe Certificate</h1>") /\
     contains doc ("<div class=" ++ dq ++ "dry-run-banner" ++ dq ++ ">") /\
     contains doc "<h2>DRY RUN MODE</h2>" /\
     contains doc
       "<p>This certificate was generated from a dry run. No destructive operations were performed on the device.</p>" /\
     contains doc "<b>Execution Mode:</b> <span>DRY</span>") /\
  (lower mode <> "dry" ->
     dry_run_html_banner mode = EmptyString /\
     doc = joined_str rho (without v_dry_run_html_banner html_template) /\
     contains doc
       ("<div class=" ++ dq ++ "container" ++ dq ++ ">" ++ nl ++ "            " ++ nl ++
        "            <h1>Secure Data Wipe Certificate</h1>") /\
     (count "<" (device_path ++ utc_now_isoformat w ++ wipe_method ++ socket_gethostname w ++
                 user w ++ mode ++ device_details ++ verification_hash) = 0 ->
      ~ contains doc "<h2>DRY RUN MODE</h2>") /\
     contains doc ("<b>Execution Mode:</b> <span>" ++ upper mode ++ "</span>")).
Proof.
  cbv zeta. split; intros H.
  - pose proof (shows_banner_field w device_path wipe_method verification_hash mode
                  device_details) as B.
    pose proof (shows_mode w device_path wipe_method verification_hash mode
                  device_details) as S.
    rewrite (banner_dry _ H) in B. rewrite (lower_dry_upper _ H) in S.
    assert (T : contains
                  (html_content w device_path wipe_method verification_hash mode
                     device_details) dry_run_banner_text).
    { eapply contains_trans; [exact B |].
      exists ("<div class=" ++ dq ++ "container" ++ dq ++ ">" ++ nl ++ "            "),
             (nl ++ "            <h1>Secure Data Wipe Certificate</h1>").
      now rewrite !append_assoc. }
    split; [now apply banner_dry |]. split; [exact T |]. split; [exact B |].
    split; [| split; [| split; [| exact S]]];
      (eapply contains_trans; [exact T |]); apply infixb_contains; vm_compute; reflexivity.
  - pose proof (shows_banner_field w device_path wipe_method verification_hash mode
                  device_details) as B.
    rewrite (banner_not_dry _ H) in B.
    split; [now apply banner_not_dry |].
    split; [| split; [exact B | split; [now apply lacks_banner_heading | apply shows_mode]]].
    apply joined_str_without. cbn. now apply banner_not_dry.
Qed.

(** C3 at the spellings the specification lists: [Dry], and [foo] with
    inserted values free of markup. *)
Lemma mode_selects_banner_witness :
  (lower "Dry" = "dry" /\
   contains (html_content w_sda "/dev/sda" "NIST 800-88 Purge" "a1b2" "Dry" "sda")
     "<h2>DRY RUN MODE</h2>" /\
   contains (html_content w_sda "/dev/sda" "NIST 800-88 Purge" "a1b2" "Dry" "sda")
     "<b>Execution Mode:</b> <span>DRY</span>") /\
  (lower "foo" <> "dry" /\
   dry_run_html_banner "foo" = EmptyString /\
   ~ contains (html_content w_sda "/dev/sda" "NIST 800-88 Purge" "a1b2" "foo" "sda")
       "<h2>DRY RUN MODE</h2>" /\
   contains (html_content w_sda "/dev/sda" "NIST 800-88 Purge" "a1b2" "foo" "sda")
     "<b>Execution Mode:</b> <span>FOO</span>").
Proof.
  split.
  - destruct (proj1 (mode_selects_banner w_sda "/dev/sda" "NIST 800-88 Purge" "a1b2" "Dry" "sda")
                eq_refl) as (_ & _ & _ & _ & B & _ & S).
    exact (conj eq_refl (conj B S)).
  - assert (N : lower "foo" <> "dry") by discriminate.
    destruct (proj2 (mode_selects_banner w_sda "/dev/sda" "NIST 800-88 Purge" "a1b2" "foo" "sda")
                N) as (E & _ & _ & A & S).
    exact (conj N (conj E (conj (A eq_refl) S))).
Defined.

(** C4, as stated, fails: the mode [foo] is neither [real] nor [dry], the
    specification's normalisation would show REAL, and the document shows
    FOO and no REAL. *)
Lemma foo_is_shown_as_foo :
  let doc := html_content w_sda "/dev/sda" "NIST 800-88 Purge" "a1b2" "foo"
               (device_details_text w_sda "/dev/sda") in
  lower "foo" <> "real" /\ lower "foo" <> "dry" /\
  spec_normalized_mode "foo" = "REAL" /\
  eval (locals w_sda "/dev/sda" "NIST 800-88 Purge" "a1b2" "foo"
          (device_details_text w_sda "/dev/sda")) (CallUpper v_mode) = "FOO" /\
  contains doc "<b>Execution Mode:</b> <span>FOO</span>" /\
  ~ contains doc "REAL".
Proof.
  cbv zeta. split; [discriminate |]. split; [discriminate |].
  split; [reflexivity |]. split; [reflexivity |]. split.
  - apply infixb_contains. vm_compute. reflexivity.
  - apply infixb_absent. vm_compute. reflexivity.
Qed.

(** C4, amended: for every mode the document shows the input uppercased as
    the execution mode; what is shown is REAL exactly when the input is
    [real] up to case, and DRY exactly when it is [dry] up to case. *)
Theorem mode_shown_uppercased (w : world)
    (device_path wipe_method verification_hash mode device_details : string) :
  let doc := html_content w device_path wipe_method verification_hash mode device_details in
  let rho := locals w device_path wipe_method verification_hash mode device_details in
  eval rho (CallUpper v_mode) = upper mode /\
  contains doc ("<b>Execution Mode:</b> <span>" ++ upper mode ++ "</span>") /\
  (upper mode = "REAL" <-> lower mode = "real") /\
  (upper mode = "DRY" <-> lower mode = "dry").
Proof.
  cbv zeta. split; [reflexivity |]. split; [apply shows_mode |].
  split; [apply upper_real_iff |].
  split; [| apply lower_dry_upper].
  intros H. rewrite <- lower_upper, H. reflexivity.
Qed.

(** ** C2, C9: device inspection *)

Lemma enumerated_failure_caught (w : world) (device_path : string) (e : exn) :
  enumerated_failure w device_path e ->
  query_device w device_path = raise e /\ is_query_error (class_of e) = true.
Proof.
  intros [e' R C | e' R C | out e' R L C | out v R L G]; unfold query_device, try_bind.
  - rewrite R. unfold raise. now rewrite C.
  - rewrite R. unfold raise. now rewrite C.
  - rewrite R. unfold ok. rewrite L. unfold raise. now rewrite C.
  - rewrite R. unfold ok. rewrite L. unfold ok. rewrite G. now unfold ok.
Qed.

Lemma device_details_caught (w : world) (device_path : string) (e : exn) :
  query_device w device_path = raise e ->
  is_query_error (class_of e) = true ->
  device_details_text w device_path = could_not_retrieve device_path e.
Proof. intros Q C. unfold device_details_text. rewrite Q. unfold raise. now rewrite C. Qed.

Lemma device_details_unexpected (w : world) (device_path : string) (e : exn) :
  query_device w device_path = raise e ->
  is_query_error (class_of e) = false ->
  device_details_text w device_path = unexpected_error e.
Proof. intros Q C. unfold device_details_text. rewrite Q. unfold raise. now rewrite C. Qed.

(** C2, as stated, fails: for the device [/dev/sdz99] on [w_missing],
    where the tool exits non-zero, the text returned is not the one-line
    form of the specification: the reason starts on a second line. *)
Lemma failure_text_has_two_lines :
  let e := Exn CalledProcessError "Command 'lsblk' returned non-zero exit status 32." in
  enumerated_failure w_missing "/dev/sdz99" e /\
  get_device_details w_missing "/dev/sdz99" =
    ([Spawn (lsblk_cmd "/dev/sdz99")],
     Return ("Could not retrieve device details for '/dev/sdz99'." ++ nl ++
             "Reason: Command 'lsblk' returned non-zero exit status 32.")) /\
  device_details_text w_missing "/dev/sdz99" <> spec_could_not_retrieve "/dev/sdz99" e /\
  count (ascii_of_nat 10) (device_details_text w_missing "/dev/sdz99") = 1 /\
  count (ascii_of_nat 10) (spec_could_not_retrieve "/dev/sdz99" e) = 0.
Proof.
  cbv zeta. split; [| split; [| split; [| split]]].
  - now apply nonzero_exit.
  - reflexivity.
  - apply (proj1 (String.eqb_neq _ _)). vm_compute. reflexivity.
  - vm_compute. reflexivity.
  - vm_compute. reflexivity.
Qed.

(** C2, amended: when the query fails in one of the four enumerated ways,
    [get_device_details] returns, without raising, the two-line text
    [Could not retrieve device details for '<devicePath>'.] / [Reason:
    <cause>], and a five-argument run still writes the certificate, with
    that text in the place of the device data. *)
Theorem enumerated_failure_is_reported (w : world) (device_path : string) (e : exn) :
  enumerated_failure w device_path e ->
  let text := "Could not retrieve device details for '" ++ device_path ++ "'." ++ nl ++
              "Reason: " ++ exn_str e in
  get_device_details w device_path = ([Spawn (lsblk_cmd device_path)], Return text) /\
  forall argv0 out_base method v_hash mode : string,
    let doc := html_content w device_path method v_hash mode text in
    let target := out_base ++ "_certificate.pdf" in
    contains doc
      ("<pre class=" ++ dq ++ "mono" ++ dq ++ ">" ++ text ++ "</pre>" ++ nl ++ nl ++
       "            <h2>Verification</h2>") /\
    main w argv0 [device_path; out_base; method; v_hash; mode] =
    match write_pdf w doc target with
    | None =>
        match stdout_print w ("Successfully generated PDF certificate: " ++ target) with
        | Delivered =>
            ([Spawn (lsblk_cmd device_path); WritePdf target doc None;
              Stdout ("Successfully generated PDF certificate: " ++ target)], Return tt)
        | PrintRaises e' =>
            ([Spawn (lsblk_cmd device_path); WritePdf target doc None;
              Stderr ("Error: Could not write PDF certificate '" ++ target ++
                      "'. Reason: " ++ exn_str e')], SystemExit 1%Z)
        | FlushFails report =>
            ([Spawn (lsblk_cmd device_path); WritePdf target doc None; Stderr report],
             SystemExit 120%Z)
        end
    | Some e' =>
        ([Spawn (lsblk_cmd device_path); WritePdf target doc (Some e');
          Stderr ("Error: Could not write PDF certificate '" ++ target ++
                  "'. Reason: " ++ exn_str e')], SystemExit 1%Z)
    end.
Proof.
  intros F. cbv zeta.
  destruct (enumerated_failure_caught _ _ _ F) as (Q & C).
  pose proof (device_details_caught _ _ _ Q C) as D. unfold could_not_retrieve in D.
  split.
  - unfold get_device_details. rewrite D. reflexivity.
  - intros argv0 out_base method v_hash mode. split; [apply shows_device_details |].
    rewrite main_five, generate_run. cbv zeta. rewrite D. reflexivity.
Qed.

Lemma enumerated_failure_is_reported_witness :
  let e := Exn CalledProcessError "Command 'lsblk' returned non-zero exit status 32." in
  enumerated_failure w_missing "/dev/sdz99" e /\
  get_device_details w_missing "/dev/sdz99" =
  ([Spawn (lsblk_cmd "/dev/sdz99")],
   Return ("Could not retrieve device details for '/dev/sdz99'." ++ nl ++
           "Reason: Command 'lsblk' returned non-zero exit status 32.")).
Proof.
  cbv zeta.
  assert (F : enumerated_failure w_missing "/dev/sdz99"
                (Exn CalledProcessError "Command 'lsblk' returned non-zero exit status 32."))
    by (apply nonzero_exit; reflexivity).
  split; [exact F |].
  exact (proj1 (enumerated_failure_is_reported w_missing "/dev/sdz99" _ F)).
Defined.

(** An answer that parses and has no [blockdevices] member, or is not an
    object, fails outside the enumerated classes. *)
Example failures_outside_the_tuple :
  getitem_key (JDict []) "blockdevices" = raise (Exn KeyError "'blockdevices'") /\
  getitem_key (JList []) "blockdevices" =
    raise (Exn TypeError "list indices must be integers or slices, not str") /\
  getitem_0 (JInt 7) = raise (Exn TypeError "'int' object is not subscriptable") /\
  is_query_error KeyError = false /\ is_query_error TypeError = false.
Proof. repeat split. Qed.

(** C9: [get_device_details] always returns a string, after its one
    query, whatever the query raised; when the exception is of a class
    outside the four of the first handler, the string is [An unexpected
    error occurred: <cause>], built from the exception alone, with no
    mention of the device path. *)
Theorem get_device_details_total (w : world) (device_path : string) :
  (exists text : string,
     get_device_details w device_path = ([Spawn (lsblk_cmd device_path)], Return text)) /\
  (forall e : exn,
     query_device w device_path = raise e ->
     is_query_error (class_of e) = false ->
     get_device_details w device_path =
       ([Spawn (lsblk_cmd device_path)],
        Return ("An unexpected error occurred: " ++ exn_str e)) /\
     forall (w' : world) (device_path' : string),
       query_device w' device_path' = raise e ->
       device_details_text w' device_path' = device_details_text w device_path).
Proof.
  split.
  - exists (device_details_text w device_path). reflexivity.
  - intros e Q C. pose proof (device_details_unexpected _ _ _ Q C) as D. split.
    + unfold get_device_details. rewrite D. reflexivity.
    + intros w' device_path' Q'.
      now rewrite D, (device_details_unexpected _ _ _ Q' C).
Qed.

(** C9 on [w_nokey]: the answer has no [blockdevices] member. *)
Lemma get_device_details_total_witness :
  query_device w_nokey "/dev/sda" = raise (Exn KeyError "'blockdevices'") /\
  get_device_details w_nokey "/dev/sda" =
    ([Spawn (lsblk_cmd "/dev/sda")],
     Return "An unexpected error occurred: 'blockdevices'") /\
  infixb "/dev/sda" "An unexpected error occurred: 'blockdevices'" = false.
Proof.
  split; [reflexivity |]. split; [| reflexivity].
  exact (proj1 (proj2 (get_device_details_total w_nokey "/dev/sda")
                  (Exn KeyError "'blockdevices'") eq_refl eq_refl)).
Defined.

(** ** C8: the operator identity *)

Example str_N_digits : str_N 0 = "0" /\ str_N 1000 = "1000" /\ str_N 65534 = "65534".
Proof. repeat split. Qed.

(** The number is read back from its text. *)
Lemma str_N_inv (n : N) :
  option_map N.of_uint (NilZero.uint_of_string (str_N n)) = Some n.
Proof.
  unfold str_N. rewrite NilZero.usu.
  - simpl. now rewrite DecimalN.Unsigned.of_to.
  - destruct n as [|p]; [discriminate | apply DecimalPos.Unsigned.to_uint_nonnil].
Qed.

(** C8: when the login name cannot be resolved, the operator recorded is
    [uid:<n>] with [n] the effective user id in decimal; [user] is a total
    function of the machine state, its value is non-empty in the fallback
    case, and non-empty altogether on a system whose login names are
    non-empty; the document shows it as the executing user. *)
Theorem user_falls_back_to_uid (w : world) :
  (os_getlogin w = None -> user w = "uid:" ++ str_N (os_geteuid w)) /\
  (os_getlogin w = None -> user w <> EmptyString) /\
  ((forall login, os_getlogin w = Some login -> login <> EmptyString) ->
   user w <> EmptyString) /\
  (forall device_path wipe_method verification_hash mode device_details : string,
     contains (html_content w device_path wipe_method verification_hash mode device_details)
              ("<b>Executing User:</b> <span>" ++ user w ++ "</span>")).
Proof.
  unfold user. split; [| split; [| split]].
  - intros H. now rewrite H.
  - intros H. rewrite H. discriminate.
  - intros H. destruct (os_getlogin w) as [login|]; [now apply H | discriminate].
  - intros. apply shows_user.
Qed.

Lemma user_falls_back_to_uid_witness :
  os_getlogin w_missing = None /\ user w_missing = "uid:0" /\
  contains (html_content w_missing "/dev/sdz99" "NIST 800-88 Purge" "a1b2" "dry"
              (device_details_text w_missing "/dev/sdz99"))
           "<b>Executing User:</b> <span>uid:0</span>".
Proof.
  split; [reflexivity |]. split.
  - exact (proj1 (user_falls_back_to_uid w_missing) eq_refl).
  - exact (proj2 (proj2 (proj2 (user_falls_back_to_uid w_missing)))
             "/dev/sdz99" "NIST 800-88 Purge" "a1b2" "dry"
             (device_details_text w_missing "/dev/sdz99")).
Defined.

(** ** C5, C10: the output file *)

(** C5, as stated, fails: on [w_readonly] a five-argument run attempts the
    write to [job42_certificate.pdf], the write is refused, and no file is
    created. *)
Lemma no_file_when_write_fails :
  let run := main w_readonly "gen_cert.py"
               ["/dev/sda"; "job42"; "NIST 800-88 Purge"; "a1b2"; "real"] in
  write_attempts (trace run) = ["job42_certificate.pdf"] /\
  files_written (trace run) = [] /\
  List.length (files_written (trace run)) <> 1 /\
  exit_status run = 1%Z.
Proof.
  cbv zeta. split; [| split; [| split]]; vm_compute; (reflexivity || discriminate).
Qed.

(** C5, amended: a five-argument run attempts exactly one write, to
    [<outputBase>_certificate.pdf]; when that write succeeds exactly one
    file is produced, with that name; when it fails none is, and the run
    exits with status 1 after the diagnostic. *)
Theorem one_write_to_derived_name (w : world)
    (argv0 dev_path out_base method v_hash mode : string) :
  let run := main w argv0 [dev_path; out_base; method; v_hash; mode] in
  let doc := html_content w dev_path method v_hash mode (device_details_text w dev_path) in
  let target := out_base ++ "_certificate.pdf" in
  output_filename out_base = target /\
  write_attempts (trace run) = [target] /\
  files_written (trace run) =
    match write_pdf w doc target with
    | None => [target]
    | Some _ => []
    end /\
  (write_pdf w doc target = None -> files_written (trace run) = [target]) /\
  (forall e, write_pdf w doc target = Some e ->
     files_written (trace run) = [] /\
     exit_status run = 1%Z /\
     stderr_of (trace run) =
       ["Error: Could not write PDF certificate '" ++ target ++ "'. Reason: " ++ exn_str e]).
Proof.
  cbv zeta. rewrite main_five, generate_run. cbv zeta.
  unfold output_filename.
  split; [reflexivity |].
  destruct (write_pdf w _ _) as [e|].
  - split; [reflexivity |]. split; [reflexivity |]. split; [discriminate |].
    intros e' E. injection E as <-. repeat split.
  - destruct (stdout_print w _);
      (split; [reflexivity |]; split; [reflexivity |]; split; [reflexivity | discriminate]).
Qed.

Lemma one_write_to_derived_name_witness :
  files_written
    (trace (main w_sda "gen_cert.py"
              ["/dev/sda"; "job42"; "NIST 800-88 Purge"; "a1b2"; "real"])) =
  ["job42_certificate.pdf"].
Proof.
  exact (proj1 (proj2 (proj2 (proj2
           (one_write_to_derived_name w_sda "gen_cert.py" "/dev/sda" "job42"
              "NIST 800-88 Purge" "a1b2" "real")))) eq_refl).
Defined.

(** C10: the output base is not validated.  With the empty string as
    output base the run is the ordinary five-argument run: no usage
    message, one query, the document written to [_certificate.pdf], and an
    exit status that depends on that write and on the confirmation's
    print alone. *)
Theorem empty_output_base_accepted (w : world)
    (argv0 dev_path method v_hash mode : string) :
  let run := main w argv0 [dev_path; EmptyString; method; v_hash; mode] in
  let doc := html_content w dev_path method v_hash mode (device_details_text w dev_path) in
  output_filename EmptyString = "_certificate.pdf" /\
  run = generate_pdf_certificate w dev_path EmptyString method v_hash mode /\
  spawned (trace run) = [lsblk_cmd dev_path] /\
  write_attempts (trace run) = ["_certificate.pdf"] /\
  (exists failure, In (WritePdf "_certificate.pdf" doc failure) (trace run)) /\
  exit_status run =
    match write_pdf w doc "_certificate.pdf" with
    | None =>
        match stdout_print w "Successfully generated PDF certificate: _certificate.pdf" with
        | Delivered => 0%Z
        | PrintRaises _ => 1%Z
        | FlushFails _ => 120%Z
        end
    | Some _ => 1%Z
    end /\
  files_written (trace run) = match write_pdf w doc "_certificate.pdf" with
                              | None => ["_certificate.pdf"]
                              | Some _ => []
                              end.
Proof.
  cbv zeta. split; [reflexivity |]. split; [reflexivity |].
  rewrite main_five, generate_run. cbv zeta.
  change (output_filename EmptyString) with "_certificate.pdf".
  change ("Successfully generated PDF certificate: " ++ "_certificate.pdf")
    with "Successfully generated PDF certificate: _certificate.pdf".
  destruct (write_pdf w _ _) as [e|]; [| destruct (stdout_print w _)]; repeat split;
    eexists; simpl; right; left; reflexivity.
Qed.

(** ** C6, C7: exit status and messages *)

(** C6: with an argument count other than five the program prints the
    usage message on the diagnostic stream and exits with status 1, having
    queried and written nothing.  This is the [__main__] block, which the
    script reaches once WeasyPrint is imported; the exit status and the
    absence of any query or file hold for the script in every case. *)
Theorem wrong_arity_is_usage_error (w : world) (argv0 : string) (args : list string) :
  List.length args <> 5 ->
  (main w argv0 args = ([Stderr (usage argv0)], SystemExit 1%Z) /\
   exit_status (main w argv0 args) = 1%Z /\
   stderr_of (trace (main w argv0 args)) = [usage argv0] /\
   stdout_of (trace (main w argv0 args)) = [] /\
   spawned (trace (main w argv0 args)) = [] /\
   write_attempts (trace (main w argv0 args)) = [] /\
   files_written (trace (main w argv0 args)) = []) /\
  (weasyprint_found w = true -> script w argv0 args = main w argv0 args) /\
  (exit_status (script w argv0 args) = 1%Z /\
   stdout_of (trace (script w argv0 args)) = [] /\
   spawned (trace (script w argv0 args)) = [] /\
   write_attempts (trace (script w argv0 args)) = [] /\
   files_written (trace (script w argv0 args)) = []).
Proof.
  intros H.
  assert (E : main w argv0 args = ([Stderr (usage argv0)], SystemExit 1%Z))
    by (apply main_arity; simpl; lia).
  split; [rewrite E; repeat split |]. split; [apply script_installed |].
  destruct (weasyprint_import w) as [| |traceback] eqn:I.
  - rewrite script_installed, E; [repeat split |].
    unfold weasyprint_found. now rewrite I.
  - rewrite (script_not_installed _ _ _ I). repeat split.
  - rewrite (script_import_raised _ _ _ _ I). repeat split.
Qed.

(** C6 on the specification's scenario: four arguments, [mode] missing. *)
Lemma wrong_arity_is_usage_error_witness :
  List.length ["/dev/sdz99"; "job42"; "NIST 800-88 Purge"; "a1b2"] <> 5 /\
  script w_missing "gen_cert.py" ["/dev/sdz99"; "job42"; "NIST 800-88 Purge"; "a1b2"] =
  ([Stderr ("Usage: gen_cert.py <device_path> <output_base> " ++ dq ++ "<wipe_method>" ++ dq ++
            " <verification_hash> <mode>")], SystemExit 1%Z).
Proof.
  assert (H : List.length ["/dev/sdz99"; "job42"; "NIST 800-88 Purge"; "a1b2"] <> 5)
    by (simpl; lia).
  split; [exact H |].
  destruct (wrong_arity_is_usage_error w_missing "gen_cert.py"
              ["/dev/sdz99"; "job42"; "NIST 800-88 Purge"; "a1b2"] H) as ((E & _) & S & _).
  rewrite (S eq_refl). exact E.
Defined.




(** The same run when the write is refused. *)
Example exit_status_readonly :
  let run := script w_readonly "gen_cert.py"
               ["/dev/sda"; "job42"; "NIST 800-88 Purge"; "a1b2"; "real"] in
  exit_status run = 1%Z /\
  stderr_of (trace run) =
    ["Error: Could not write PDF certificate 'job42_certificate.pdf'. Reason: [Errno 13] Permission denied: 'job42_certificate.pdf'"] /\
  stdout_of (trace run) = [].
Proof. cbv zeta. repeat split. Qed.

(** What the tool's answer looks like in the document on [w_sda]. *)
Example device_details_sda :
  device_details_text w_sda "/dev/sda" =
  "{" ++ nl ++
  "    " ++ dq ++ "name" ++ dq ++ ": " ++ dq ++ "sda" ++ dq ++ "," ++ nl ++
  "    " ++ dq ++ "size" ++ dq ++ ": 500107862016," ++ nl ++
  "    " ++ dq ++ "model" ++ dq ++ ": " ++ dq ++ "<b>DISK</b>" ++ dq ++ "," ++ nl ++
  "    " ++ dq ++ "serial" ++ dq ++ ": null," ++ nl ++
  "    " ++ dq ++ "type" ++ dq ++ ": " ++ dq ++ "disk" ++ dq ++ nl ++
  "}".
Proof. vm_compute. reflexivity. Qed.

(** Without WeasyPrint the script stops before its argument test: wrong
    arity or not, it exits with status 1 on the import message. *)
Example script_without_weasyprint :
  script w_noweasy "gen_cert.py" ["/dev/sda"; "job42"; "NIST 800-88 Purge"; "a1b2"; "real"] =
  script w_noweasy "gen_cert.py" ["/dev/sda"] /\
  exit_status (script w_noweasy "gen_cert.py" ["/dev/sda"]) = 1%Z /\
  stderr_of (trace (script w_noweasy "gen_cert.py" ["/dev/sda"])) =
    ["Error: WeasyPrint library not found.";
     "Please install it by running: pip install WeasyPrint"].
Proof. repeat split. Qed.

(** * Further properties of the code *)

(** ** The device query (lines 22-37) *)

(** X1: when the tool's answer parses to an object whose [blockdevices]
    list is not empty, [get_device_details] returns the first record of
    that list, pretty-printed; the records after the first play no part. *)
Theorem first_record_is_reported (w : world) (device_path out : string)
    (d : list (string * json)) (record : json) (others : list json) :
  subprocess_run w (lsblk_cmd device_path) = ok out ->
  json_loads w out = ok (JDict d) ->
  dict_get "blockdevices" d = Some (JList (record :: others)) ->
  get_device_details w device_path =
  ([Spawn (lsblk_cmd device_path)], Return (json_dumps_indent4 record)).
Proof.
  intros R L G. unfold get_device_details, device_details_text, query_device, try_bind.
  rewrite R. unfold ok at 1. rewrite L. unfold ok at 1. unfold getitem_key.
  rewrite G. reflexivity.
Qed.

Lemma first_record_is_reported_witness :
  subprocess_run w_sda (lsblk_cmd "/dev/sda") = ok sda_stdout /\
  get_device_details w_sda "/dev/sda" =
  ([Spawn (lsblk_cmd "/dev/sda")],
   Return (json_dumps_indent4
             (JDict [("name", JStr "sda"); ("size", JInt 500107862016);
                     ("model", JStr "<b>DISK</b>"); ("serial", JNull);
                     ("type", JStr "disk")]))).
Proof.
  split; [reflexivity |].
  exact (first_record_is_reported w_sda "/dev/sda" sda_stdout _ _ []
           eq_refl eq_refl eq_refl).
Defined.

(** X2: when the answer parses to an object that has no [blockdevices]
    member, the [KeyError] falls through the first handler: the text
    returned is [An unexpected error occurred: 'blockdevices'], not the
    [Could not retrieve] one, and the device path is not in it. *)
Theorem missing_member_is_unexpected (w : world) (device_path out : string)
    (d : list (string * json)) :
  subprocess_run w (lsblk_cmd device_path) = ok out ->
  json_loads w out = ok (JDict d) ->
  dict_get "blockdevices" d = None ->
  query_device w device_path = raise (Exn KeyError "'blockdevices'") /\
  get_device_details w device_path =
  ([Spawn (lsblk_cmd device_path)],
   Return "An unexpected error occurred: 'blockdevices'").
Proof.
  intros R L G.
  assert (Q : query_device w device_path = raise (Exn KeyError "'blockdevices'")).
  { unfold query_device, try_bind. rewrite R. unfold ok at 1. rewrite L.
    unfold ok at 1. unfold getitem_key. rewrite G. reflexivity. }
  split; [exact Q |].
  unfold get_device_details. now rewrite (device_details_unexpected _ _ _ Q eq_refl).
Qed.

Lemma missing_member_is_unexpected_witness :
  dict_get "blockdevices" [] = None /\
  get_device_details w_nokey "/dev/sda" =
  ([Spawn (lsblk_cmd "/dev/sda")],
   Return "An unexpected error occurred: 'blockdevices'").
Proof.
  split; [reflexivity |].
  exact (proj2 (missing_member_is_unexpected w_nokey "/dev/sda" "{}" []
                  eq_refl eq_refl eq_refl)).
Defined.

(** X3: when the answer parses to anything but an object (an array, a
    string, a number, a boolean, null), subscripting it raises a
    [TypeError], which the second handler reports as [An unexpected error
    occurred: <text>]. *)
Theorem non_object_answer_is_unexpected (w : world) (device_path out : string) (v : json) :
  subprocess_run w (lsblk_cmd device_path) = ok out ->
  json_loads w out = ok v ->
  is_object v = false ->
  query_device w device_path = raise (Exn TypeError (not_an_object_text v)) /\
  get_device_details w device_path =
  ([Spawn (lsblk_cmd device_path)],
   Return ("An unexpected error occurred: " ++ not_an_object_text v)).
Proof.
  intros R L O.
  assert (Q : query_device w device_path = raise (Exn TypeError (not_an_object_text v))).
  { unfold query_device, try_bind. rewrite R. unfold ok at 1. rewrite L.
    unfold ok at 1. destruct v; try reflexivity. discriminate. }
  split; [exact Q |].
  unfold get_device_details. now rewrite (device_details_unexpected _ _ _ Q eq_refl).
Qed.

Lemma non_object_answer_is_unexpected_witness :
  is_object (JList []) = false /\
  get_device_details w_array "/dev/sda" =
  ([Spawn (lsblk_cmd "/dev/sda")],
   Return "An unexpected error occurred: list indices must be integers or slices, not str").
Proof.
  split; [reflexivity |].
  exact (proj2 (non_object_answer_is_unexpected w_array "/dev/sda" "[]" (JList [])
                  eq_refl eq_refl eq_refl)).
Defined.

(** ** The script as a whole (lines 14-20, 149-163) *)





(** ** The output name (line 49) *)

Lemma length_append (a b : string) : String.length (a ++ b) = String.length a + String.length b.
Proof. induction a as [|c r IH]; simpl; [reflexivity | now rewrite IH]. Qed.

Lemma append_cancel_r (a b s : string) : a ++ s = b ++ s -> a = b.
Proof.
  revert b; induction a as [|x a IH]; intros [|y b] H.
  - reflexivity.
  - apply (f_equal String.length) in H. simpl in H. rewrite length_append in H. lia.
  - apply (f_equal String.length) in H. simpl in H. rewrite length_append in H. lia.
  - simpl in H. injection H as -> H. f_equal. now apply IH.
Qed.

(** X6: the output name determines the output base.  Two runs write to
    the same file only when they were given the same base; the name is
    the base followed by sixteen characters, and is never empty. *)
Theorem output_filename_injective (base base' : string) :
  (output_filename base = output_filename base' <-> base = base') /\
  String.length (output_filename base) = String.length base + 16 /\
  output_filename base <> EmptyString.
Proof.
  unfold output_filename. split; [split |].
  - apply append_cancel_r.
  - now intros ->.
  - split; [now rewrite length_append |].
    intros H. apply (f_equal String.length) in H. rewrite length_append in H.
    simpl in H. lia.
Qed.

(** ** The mode (lines 53 and 132) *)

Lemma joined_str_ext (rho rho' : scope) (ps : list fpart) :
  Forall (fun e => eval rho e = eval rho' e) (formatted ps) ->
  joined_str rho ps = joined_str rho' ps.
Proof.
  induction ps as [|[s | e] r IH]; intros F; simpl in *.
  - reflexivity.
  - now rewrite IH.
  - inversion F as [|? ? E F']; subst. now rewrite E, IH.
Qed.

Lemma lower_eq_upper_eq (m m' : string) : lower m = lower m' -> upper m = upper m'.
Proof. intros H. now rewrite <- (upper_lower m), <- (upper_lower m'), H. Qed.

(** X7: an ASCII mode counts up to case only.  Two ASCII modes with the
    same lowercase form give the same document and the same run: the same
    query, the same write, the same message, the same exit status. *)
Theorem mode_counts_up_to_case (w : world)
    (argv0 dev_path out_base method v_hash mode mode' : string) :
  is_ascii mode = true -> is_ascii mode' = true ->
  lower mode = lower mode' ->
  (forall device_details : string,
     html_content w dev_path method v_hash mode device_details =
     html_content w dev_path method v_hash mode' device_details) /\
  main w argv0 [dev_path; out_base; method; v_hash; mode] =
  main w argv0 [dev_path; out_base; method; v_hash; mode'].
Proof.
  intros _ _ H.
  assert (D : forall device_details : string,
             html_content w dev_path method v_hash mode device_details =
             html_content w dev_path method v_hash mode' device_details).
  { intros dd. unfold html_content. apply joined_str_ext.
    let l := eval vm_compute in (formatted html_template) in
    change (formatted html_template) with l.
    repeat constructor; unfold eval, locals; try reflexivity.
    - unfold dry_run_html_banner. now rewrite H.
    - now apply lower_eq_upper_eq. }
  split; [exact D |].
  rewrite !main_five, !generate_run. cbv zeta.
  now rewrite (D (device_details_text w dev_path)).
Qed.

Lemma mode_counts_up_to_case_witness :
  is_ascii "Dry" = true /\ is_ascii "DRY" = true /\
  lower "Dry" = lower "DRY" /\
  main w_sda "gen_cert.py" ["/dev/sda"; "job42"; "NIST 800-88 Purge"; "a1b2"; "Dry"] =
  main w_sda "gen_cert.py" ["/dev/sda"; "job42"; "NIST 800-88 Purge"; "a1b2"; "DRY"].
Proof.
  split; [reflexivity |]. split; [reflexivity |]. split; [reflexivity |].
  exact (proj2 (mode_counts_up_to_case w_sda "gen_cert.py" "/dev/sda" "job42"
                  "NIST 800-88 Purge" "a1b2" "Dry" "DRY" eq_refl eq_refl eq_refl)).
Defined.

Lemma lower_char_d (c : ascii) : lower_char c = "d"%char -> c = "d"%char \/ c = "D"%char.
Proof. destruct c as [[] [] [] [] [] [] [] []]; vm_compute; intros H; auto; discriminate. Qed.

Lemma lower_char_r (c : ascii) : lower_char c = "r"%char -> c = "r"%char \/ c = "R"%char.
Proof. destruct c as [[] [] [] [] [] [] [] []]; vm_compute; intros H; auto; discriminate. Qed.

Lemma lower_char_y (c : ascii) : lower_char c = "y"%char -> c = "y"%char \/ c = "Y"%char.
Proof. destruct c as [[] [] [] [] [] [] [] []]; vm_compute; intros H; auto; discriminate. Qed.

(** X8: the banner is selected by exactly eight mode strings, the
    spellings of [dry] in upper and lower case.  Nothing is trimmed or
    abbreviated: any other string, [dry] with a blank or a line break
    around it included, gives no banner. *)
Theorem banner_spellings (mode : string) :
  (lower mode = "dry" <-> In mode dry_spellings) /\
  (dry_run_html_banner mode = dry_run_banner_text <-> In mode dry_spellings) /\
  (~ In mode dry_spellings -> dry_run_html_banner mode = EmptyString).
Proof.
  assert (A : lower mode = "dry" <-> In mode dry_spellings).
  { split.
    - intros H. destruct mode as [|a [|b [|c [|d r]]]]; try discriminate.
      unfold lower in H. simpl in H. injection H as Ha Hb Hc.
      destruct (lower_char_d _ Ha) as [-> | ->], (lower_char_r _ Hb) as [-> | ->],
               (lower_char_y _ Hc) as [-> | ->]; simpl; auto 10.
    - unfold dry_spellings. simpl.
      intros [<- | [<- | [<- | [<- | [<- | [<- | [<- | [<- | []]]]]]]]]; reflexivity. }
  split; [exact A |]. split.
  - rewrite <- A. split; [| apply banner_dry].
    intros H. destruct (string_dec (lower mode) "dry") as [E | N]; [exact E |].
    rewrite (banner_not_dry _ N) in H. discriminate.
  - intros N. apply banner_not_dry. intros E. apply N, A, E.
Qed.

Example not_dry_spellings :
  dry_run_html_banner " dry" = EmptyString /\
  dry_run_html_banner ("dry" ++ nl) = EmptyString /\
  dry_run_html_banner "dry-run" = EmptyString /\
  dry_run_html_banner "d" = EmptyString.
Proof. repeat split. Qed.

(** ** The operator identity (lines 43-46) *)

Lemma str_N_injective (a b : N) : str_N a = str_N b -> a = b.
Proof.
  intros H. pose proof (str_N_inv a) as Ia. rewrite H, str_N_inv in Ia. now injection Ia.
Qed.

(** X9: in the fallback case the recorded operator tells the effective
    user id: two runs without a resolvable login name record the same
    operator exactly when they ran under the same effective user id, and
    the id is read back from the digits after [uid:]. *)
Theorem uid_fallback_tells_the_uid (w w' : world) :
  os_getlogin w = None ->
  os_getlogin w' = None ->
  (user w = user w' <-> os_geteuid w = os_geteuid w') /\
  exists digits : string,
    user w = "uid:" ++ digits /\
    option_map N.of_uint (NilZero.uint_of_string digits) = Some (os_geteuid w).
Proof.
  intros H H'. unfold user. rewrite H, H'. split; [split |].
  - intros E. simpl in E. injection E as E. now apply str_N_injective.
  - now intros ->.
  - exists (str_N (os_geteuid w)). split; [reflexivity | apply str_N_inv].
Qed.

Lemma uid_fallback_tells_the_uid_witness :
  os_getlogin w_missing = None /\ os_getlogin w_daemon = None /\
  user w_missing = "uid:0" /\ user w_daemon = "uid:33" /\
  (user w_missing = user w_daemon <-> os_geteuid w_missing = os_geteuid w_daemon).
Proof.
  split; [reflexivity |]. split; [reflexivity |].
  split; [reflexivity |]. split; [reflexivity |].
  exact (proj1 (uid_fallback_tells_the_uid w_missing w_daemon eq_refl eq_refl)).
Defined.

(** ** The layout of the document (lines 62-147) *)

Lemma starts_with_skipn (seg ps : list fpart) :
  starts_with seg ps = true -> ps = (seg ++ skipn (List.length seg) ps)%list.
Proof.
  revert ps; induction seg as [|a seg IH]; intros ps H; [reflexivity |].
  destruct ps as [|b ps]; [discriminate |]. simpl in H.
  destruct (fpart_eq_dec a b) as [-> |]; [| discriminate].
  simpl. f_equal. now apply IH.
Qed.

Lemma after_segment_app (seg ps rest : list fpart) :
  after_segment seg ps = Some rest -> exists a, ps = (a ++ seg ++ rest)%list.
Proof.
  induction ps as [|p ps IH]; cbn [after_segment];
    destruct (starts_with seg _) eqn:S0; intros H; try discriminate.
  - injection H as <-. exists []. now apply starts_with_skipn.
  - injection H as <-. exists []. now apply starts_with_skipn.
  - destruct (IH H) as (a & ->). now exists (p :: a).
Qed.

Lemma joined_str_ordered (rho : scope) (segs : list (list fpart)) (ps : list fpart) :
  segments_in_order segs ps = true ->
  ordered (joined_str rho ps) (map (joined_str rho) segs).
Proof.
  revert ps; induction segs as [|seg r IH]; intros ps H; simpl; [exact I |].
  simpl in H. destruct (after_segment seg ps) as [rest|] eqn:A; [| discriminate].
  destruct (after_segment_app _ _ _ A) as (a & ->).
  exists (joined_str rho a), (joined_str rho rest). split.
  - now rewrite !joined_str_app.
  - now apply IH.
Qed.

Lemma ordered_prepend (b hay : string) (needles : list string) :
  ordered hay needles -> ordered (b ++ hay) needles.
Proof.
  destruct needles as [|n r]; [exact (fun H => H) |].
  intros (pre & post & -> & O). exists (b ++ pre), post.
  split; [now rewrite append_assoc | exact O].
Qed.

(** Needles may be cut down to what they contain. *)
Lemma ordered_within (hay : string) (needles needles' : list string) :
  Forall2 contains needles needles' -> ordered hay needles -> ordered hay needles'.
Proof.
  intros F; revert hay; induction F as [|n n' r r' C F IH]; intros hay O; [exact I |].
  destruct O as (pre & post & -> & O). destruct C as (a & b & ->).
  exists (pre ++ a), (b ++ post). split.
  - now rewrite !append_assoc.
  - apply ordered_prepend, IH, O.
Qed.

(** X10: whatever the inputs, the document has its parts in one order:
    the title with the device path, the place of the banner, the main
    heading, the operation details (timestamp, method, host, user, mode),
    the device information (path, then descriptor), and the verification
    block with the hash last. *)
Theorem document_layout (w : world)
    (device_path wipe_method verification_hash mode device_details : string) :
  ordered (html_content w device_path wipe_method verification_hash mode device_details)
    [ "<title>Secure Data Wipe Certificate for " ++ device_path ++ "</title>";
      dry_run_html_banner mode;
      "<h1>Secure Data Wipe Certificate</h1>";
      "<h2>Operation Details</h2>";
      "<b>Wipe Timestamp (UTC):</b> <span>" ++ utc_now_isoformat w ++ "</span>";
      "<b>Wipe Method Employed:</b> <span>" ++ wipe_method ++ "</span>";
      "<b>Executing Hostname:</b> <span>" ++ socket_gethostname w ++ "</span>";
      "<b>Executing User:</b> <span>" ++ user w ++ "</span>";
      "<b>Execution Mode:</b> <span>" ++ upper mode ++ "</span>";
      "<h2>Device Information</h2>";
      "<b>Device Path:</b> <span>" ++ device_path ++ "</span>";
      "<pre class=" ++ dq ++ "mono" ++ dq ++ ">" ++ device_details ++ "</pre>";
      "<h2>Verification</h2>";
      "<p>Post-wipe sample hash (SHA256) of the first 4096 bytes:</p>";
      "<pre class=" ++ dq ++ "mono" ++ dq ++ ">" ++ verification_hash ++ "</pre>" ].
Proof.
  pose (rho := locals w device_path wipe_method verification_hash mode device_details).
  eapply ordered_within;
    [| apply (joined_str_ordered rho
         [ [tx "        <title>Secure Data Wipe Certificate for "; fv v_device_path;
            ln "</title>"];
           [fv v_dry_run_html_banner];
           [ln "            <h1>Secure Data Wipe Certificate</h1>"];
           [ln "            <h2>Operation Details</h2>"];
           [tx "                <b>Wipe Timestamp (UTC):</b> <span>"; fv v_timestamp;
            ln "</span>"];
           [tx "                <b>Wipe Method Employed:</b> <span>"; fv v_wipe_method;
            ln "</span>"];
           [tx "                <b>Executing Hostname:</b> <span>"; fv v_hostname;
            ln "</span>"];
           [tx "                <b>Executing User:</b> <span>"; fv v_user; ln "</span>"];
           [tx "                <b>Execution Mode:</b> <span>"; up v_mode; ln "</span>"];
           [ln "            <h2>Device Information</h2>"];
           [tx "                <b>Device Path:</b> <span>"; fv v_device_path; ln "</span>"];
           [tx ("            <pre class=" ++ dq ++ "mono" ++ dq ++ ">"); fv v_device_details;
            ln "</pre>"];
           [ln "            <h2>Verification</h2>"];
           [ln "            <p>Post-wipe sample hash (SHA256) of the first 4096 bytes:</p>"];
           [tx ("            <pre class=" ++ dq ++ "mono" ++ dq ++ ">");
            fv v_verification_hash; ln "</pre>"] ]);
       vm_compute; reflexivity].
  cbn [map].
  repeat (apply Forall2_cons || apply Forall2_nil).
  all: try (framed "        " nl).
  all: try (framed "            " nl).
  all: try (framed "                " nl).
  framed EmptyString EmptyString.
Qed.

(** An import that raises [OSError] is not caught by line 17: the run ends
    in the traceback, with neither the installation hint nor the usage
    message. *)
Example script_import_oserror :
  script w_import_oserror "gen_cert.py" ["/dev/sda"] =
  ([Stderr ("Traceback (most recent call last):" ++ nl ++
            "OSError: cannot load library 'gobject-2.0-0'")], SystemExit 1%Z) /\
  script w_import_oserror "gen_cert.py"
    ["/dev/sda"; "job42"; "NIST 800-88 Purge"; "a1b2"; "real"] =
  script w_import_oserror "gen_cert.py" ["/dev/sda"].
Proof. split; reflexivity. Qed.
